(** * Live preview server: connection bookkeeping and server orchestration

    A shallow embedding of [src/connectionInfo/connection.ts] (the classes
    [Connection] and [serverPortAttributesProvider]) and of the [Server]
    class that follows it in the same source file, together with the
    properties that the specification states about them.

    Conventions of the embedding:
    - a JavaScript [number] that holds a port is a [Z];
    - a JavaScript [string] is a [string]; [undefined] is [None];
    - the truthiness tests of the source ([if (x)], [x && y], [x ? a : b])
      are written out with [truthy_string], [truthy_number] and matches on
      [option];
    - calls into collaborators and into the editor API are recorded, in
      program order, in a log of effects. *)

From Stdlib Require Import String Ascii List ZArith Bool Lia Arith.
From Stdlib Require Import DecimalString DecimalZ.
Import ListNotations.

Local Open Scope string_scope.
Local Open Scope bool_scope.

(* ================================================================== *)
(** ** JavaScript values and string primitives                          *)
(* ================================================================== *)

Module JS.

(** [if (s)] on a string: every string but the empty one is truthy. *)
Definition truthy_string (s : string) : bool :=
  match s with
  | EmptyString => false
  | String _ _ => true
  end.

(** [if (n)] on an integer-valued number: every number but zero. *)
Definition truthy_number (n : Z) : bool := negb (n =? 0)%Z.

(** [s.startsWith(pre)]. *)
Fixpoint startsWith (s pre : string) {struct pre} : bool :=
  match pre with
  | EmptyString => true
  | String a pre' =>
      match s with
      | EmptyString => false
      | String b s' => Ascii.eqb a b && startsWith s' pre'
      end
  end.

(** [s.substring(n)] and [s.substr(n)] with a single, in-range or
    out-of-range, non-negative start index: the characters from index
    [n] on, the empty string when [n] is past the end. *)
Fixpoint substring_from (n : nat) (s : string) : string :=
  match n with
  | O => s
  | S n' =>
      match s with
      | EmptyString => EmptyString
      | String _ s' => substring_from n' s'
      end
  end.

(** [s.replace(/c/g, d)] for a one-character pattern: every occurrence
    of [c] becomes [d]. *)
Fixpoint replace_char (c d : ascii) (s : string) : string :=
  match s with
  | EmptyString => EmptyString
  | String a s' =>
      String (if Ascii.eqb a c then d else a) (replace_char c d s')
  end.

Definition slash : ascii := "/"%char.
Definition backslash : ascii := "092"%char.

End JS.

(* ================================================================== *)
(** ** The editor API, as far as the code touches it                    *)
(* ================================================================== *)

Module vscode.

(** [vscode.Uri]: only [fsPath] is read by the code. *)
Record Uri : Type := mkUri { fsPath : string }.

(** [vscode.WorkspaceFolder]: only [uri] is read by the code. *)
Record WorkspaceFolder : Type := mkWorkspaceFolder { uri : Uri }.

Inductive PortAutoForwardAction : Type :=
| Notify | OpenBrowser | OpenPreview | Silent | Ignore | OpenBrowserOnce.

(** [new vscode.PortAttributes(action)]. *)
Record PortAttributes : Type :=
  mkPortAttributes { autoForwardAction : PortAutoForwardAction }.

End vscode.

(* ================================================================== *)
(** ** ../utils: constants and path helpers                             *)
(* ================================================================== *)

(** Modelled from the spec: the constant [DEFAULT_HOST] is imported from
    [../utils/constants], which is not among the sources.  The spec calls
    it the loopback/default host.  No proof below unfolds it. *)
Definition DEFAULT_HOST : string := "127.0.0.1".

Module PathUtil.

Import JS.

Section WithSeparator.

(** Node's [path.sep]: the separator of the platform the extension runs
    on, a slash or a backslash. *)
Variable sep : ascii.

(** The characters that the platform's normalisation takes for a
    separator: [path.sep], and on every platform the slash. *)
Definition is_separator (c : ascii) : bool :=
  Ascii.eqb c sep || Ascii.eqb c slash.

(** The pieces of a path between its separators.  The first piece is
    what stands before the first separator: the empty string for a path
    that starts at the root, a drive name on Windows. *)
Fixpoint split (s : string) : list string :=
  match s with
  | EmptyString => [EmptyString]
  | String c s' =>
      if is_separator c then EmptyString :: split s'
      else
        match split s' with
        | seg :: segs => String c seg :: segs
        | [] => [String c EmptyString]
        end
  end.

(** Normalisation of the segments below the root: empty segments and
    [.] are dropped, [..] removes the segment before it (and is dropped
    at the root). *)
Fixpoint resolve (segs kept : list string) : list string :=
  match segs with
  | [] => rev kept
  | seg :: segs' =>
      if String.eqb seg "" || String.eqb seg "." then resolve segs' kept
      else if String.eqb seg ".." then resolve segs' (tl kept)
      else resolve segs' (seg :: kept)
  end.

(** The normalized form of an absolute path, segment by segment: its
    root piece followed by its resolved segments. *)
Definition normal_segments (p : string) : list string :=
  match split p with
  | root :: segs => root :: resolve segs []
  | [] => []
  end.

(** [l1] is a prefix of [l2] and [l2] goes on after it. *)
Fixpoint strict_prefix (l1 l2 : list string) : bool :=
  match l1, l2 with
  | [], [] => false
  | [], _ :: _ => true
  | _ :: _, [] => false
  | a :: l1', b :: l2' => String.eqb a b && strict_prefix l1' l2'
  end.

(** Modelled from the spec: [PathUtil.PathBeginsWith] lives in
    [../utils/pathUtil], which is not among the sources.  The spec asks
    for a path-segment-aware prefix match on the OS-normalized form of
    the two paths that holds for the paths strictly inside the folder:
    both paths are normalized, and the segments of the folder must be a
    prefix of the segments of the file, which go on after it. *)
Definition PathBeginsWith (file folder : string) : bool :=
  strict_prefix (normal_segments folder) (normal_segments file).

(** Modelled from the spec: [PathUtil.ConvertToPosixPath] lives in
    [../utils/pathUtil], which is not among the sources.  The spec asks
    for the POSIX-normalized form: every platform separator becomes a
    slash. *)
Definition ConvertToPosixPath (p : string) : string :=
  replace_char sep slash p.


(** *** Paths in normalized form *)




End WithSeparator.


End PathUtil.

(* ================================================================== *)
(** ** class serverPortAttributesProvider                               *)
(* ================================================================== *)

Module serverPortAttributesProvider.

Record t : Type := mk { wsPort : Z; httpPort : Z }.

(** The field initializers [wsPort = 0] and [httpPort = 0]; the
    constructor only registers the provider with the editor. *)
Definition new : t := {| wsPort := 0; httpPort := 0 |}.

(** [providePortAttributes(port, pid, commandLine, token)]; the
    cancellation token is not read and is left out. *)
Definition providePortAttributes
    (this : t) (port : Z) (pid : option Z) (commandLine : option string)
  : option vscode.PortAttributes :=
  if (port =? wsPort this)%Z || (port =? httpPort this)%Z
  then Some (vscode.mkPortAttributes vscode.Silent)
  else None.

End serverPortAttributesProvider.

(* ================================================================== *)
(** ** class Connection                                                 *)
(* ================================================================== *)

Module Connection.

Import JS.

(** The message of [resetHostToDefault], kept structured: the text
    template with its two arguments. *)
Inductive Message : Type :=
| ipCannotConnect (host default : string).

(** What a method of [Connection] does to the outside, in program
    order. *)
Inductive Effect : Type :=
| showErrorMessage (m : Message)
| fire_onShouldResetInitHost (host : string).

Record t : Type := mk {
  _workspace : option vscode.WorkspaceFolder;
  _rootPrefix : string;
  _httpPort : Z;
  _wsPort : Z;
  host : string;
  wsPath : string;
  _portAttributes : serverPortAttributesProvider.t
}.

(** [new Connection(_workspace, _rootPrefix, _httpPort, _wsPort, host)]:
    the parameter properties are stored as given, [wsPath] starts empty
    and a fresh port-attributes provider is created; the setters are not
    called. *)
Definition new (workspace : option vscode.WorkspaceFolder)
    (rootPrefix : string) (httpPort wsPort : Z) (host0 : string) : t :=
  {| _workspace := workspace;
     _rootPrefix := rootPrefix;
     _httpPort := httpPort;
     _wsPort := wsPort;
     host := host0;
     wsPath := "";
     _portAttributes := serverPortAttributesProvider.new |}.

Definition set_httpPort (port : Z) (this : t) : t :=
  {| _workspace := _workspace this;
     _rootPrefix := _rootPrefix this;
     _httpPort := port;
     _wsPort := _wsPort this;
     host := host this;
     wsPath := wsPath this;
     _portAttributes :=
       serverPortAttributesProvider.mk
         (serverPortAttributesProvider.wsPort (_portAttributes this))
         port |}.

Definition get_httpPort (this : t) : Z := _httpPort this.

Definition set_wsPort (port : Z) (this : t) : t :=
  {| _workspace := _workspace this;
     _rootPrefix := _rootPrefix this;
     _httpPort := _httpPort this;
     _wsPort := port;
     host := host this;
     wsPath := wsPath this;
     _portAttributes :=
       serverPortAttributesProvider.mk
         port
         (serverPortAttributesProvider.httpPort (_portAttributes this)) |}.

Definition get_wsPort (this : t) : Z := _wsPort this.

Definition set_host (h : string) (this : t) : t :=
  {| _workspace := _workspace this;
     _rootPrefix := _rootPrefix this;
     _httpPort := _httpPort this;
     _wsPort := _wsPort this;
     host := h;
     wsPath := wsPath this;
     _portAttributes := _portAttributes this |}.

(** [resetHostToDefault()]: the connection afterwards and the effects of
    the call. *)
Definition resetHostToDefault (this : t) : t * list Effect :=
  if negb (String.eqb (host this) DEFAULT_HOST) then
    let this' := set_host DEFAULT_HOST this in
    (this',
     [ showErrorMessage (ipCannotConnect (host this) DEFAULT_HOST);
       fire_onShouldResetInitHost (host this') ])
  else (this, []).

Section WithPlatform.

(** Node's [path.sep]. *)
Variable sep : ascii.

(** [vscode.Uri.joinPath], a function of the editor API. *)
Variable joinPath : vscode.Uri -> string -> vscode.Uri.

Definition workspace (this : t) : option vscode.WorkspaceFolder :=
  _workspace this.

Definition rootURI (this : t) : option vscode.Uri :=
  match workspace this with
  | Some w => Some (joinPath (vscode.uri w) (_rootPrefix this))
  | None => None
  end.

Definition rootPath (this : t) : option string :=
  option_map vscode.fsPath (rootURI this).

Definition _absPathInWorkspace (this : t) (path : string) : bool :=
  match rootPath this with
  | Some r =>
      if truthy_string r then PathUtil.PathBeginsWith sep path r else false
  | None => false
  end.

Definition getFileRelativeToWorkspace (this : t) (path : string)
  : option string :=
  let workspaceRoot := rootPath this in
  match workspaceRoot with
  | Some r =>
      if truthy_string r && _absPathInWorkspace this path then
        Some (PathUtil.ConvertToPosixPath sep
                (substring_from (String.length r) path))
      else None
  | None => None
  end.

End WithPlatform.

(** The hosts carried by the [onShouldResetInitHost] notifications of a
    run of effects. *)
Fixpoint notifications (es : list Effect) : list string :=
  match es with
  | [] => []
  | fire_onShouldResetInitHost h :: es' => h :: notifications es'
  | _ :: es' => notifications es'
  end.

(** Whether the host differs between two successive states: [1] for a
    change, [0] for none. *)
Definition host_changes (before after : t) : nat :=
  if String.eqb (host before) (host after) then 0 else 1.

End Connection.

(* ================================================================== *)
(** ** class Server                                                     *)
(* ================================================================== *)

Module Server.

Import JS.

(** *** Settings ([../utils/settingsUtil]) *)

(** The enumeration [AutoRefreshPreview]; its declaration is imported.
    The code names [onAnyChange] and [onSave]; the remaining policy is
    the one under which nothing reloads by itself. *)
Inductive AutoRefreshPreview : Type := onAnyChange | onSave | never.

Definition AutoRefreshPreview_eqb (a b : AutoRefreshPreview) : bool :=
  match a, b with
  | onAnyChange, onAnyChange | onSave, onSave | never, never => true
  | _, _ => false
  end.

(** What [GetConfig(extensionUri)] returns, as far as [Server] reads it. *)
Record Config : Type := mkConfig {
  autoRefreshPreview : AutoRefreshPreview;
  showServerStatusPopUps : bool
}.

(** *** Payloads *)

(** [interface PortInfo { port?: number; ws_port?: number }]. *)
Record PortInfo : Type := mkPortInfo {
  port : option Z;
  ws_port : option Z
}.

(** [serverMsg] of [../manager]: passed on untouched. *)
Definition serverMsg : Type := string.

(** [vscode.TextDocumentChangeEvent]: [contentChanges] is the only field
    read; the guard of the handlers also asks whether it is there. *)
Record TextDocumentChangeEvent : Type := mkTextDocumentChangeEvent {
  contentChanges : option (list string)
}.

Inductive StatusMessage : Type :=
| Server_Closed
| Server_Opened_on_Port (p : Z).

Definition no_root_warning : string :=
  "Cannot find a root to start a server on. Live Server may not preview optimally.".

(** *** Effects: calls that leave the class, in program order *)

Inductive Effect : Type :=
| showWarningMessage (m : string)
| showInformationMessage (m : StatusMessage)
| httpServer_setInjectorWSPort (p : Z) (context : option vscode.Uri)
| httpServer_start (p : Z) (root : string)
| httpServer_close
| wsServer_start (p : Z) (root : string) (context : option vscode.Uri)
| wsServer_close
| wsServer_refreshBrowsers
| statusBar_ServerOn (p : Z)
| statusBar_ServerOff
| statusBar_updateConfigurations
| fire_onPortChange (e : PortInfo)
| fire_onNewReqProcessed (e : serverMsg)
| fire_onFullyConnected (p : Z).

(** *** The two sub-servers *)

(** Modelled from the spec: class [HttpServer] ([./httpServer]) is not
    among the sources.  The spec gives its contract: [start] attempts to
    bind and, on success, fires one [connected] event with the bound
    port; [setInjectorWSPort] updates the WebSocket port written into
    served pages; [port] is the port it serves on.  [starts_pending]
    counts the calls of [start] whose bind has not been reported yet. *)
Record HttpServer : Type := mkHttpServer {
  http_port : Z;
  injectorWSPort : option Z;
  http_starts_pending : nat
}.

(** Modelled from the spec: class [WSServer] ([./wsServer]) is not among
    the sources.  Same contract as [HttpServer] for [start]; [ws_port]
    is the port it listens on. *)
Record WSServer : Type := mkWSServer {
  wsServer_ws_port : Z;
  ws_starts_pending : nat
}.

Definition new_HttpServer : HttpServer :=
  {| http_port := 0; injectorWSPort := None; http_starts_pending := 0 |}.

Definition new_WSServer : WSServer :=
  {| wsServer_ws_port := 0; ws_starts_pending := 0 |}.

(** *** The object and its surroundings *)

Record t : Type := mk {
  _httpServer : HttpServer;
  _wsServer : WSServer;
  _extensionUri : option vscode.Uri;
  _isServerOn : bool;
  _workspacePath : option string
}.

(** The server, the settings as they stand, and the effects so far. *)
Record World : Type := mkWorld {
  this : t;
  settings : Config;
  log : list Effect
}.

(** State passing: a method reads and updates the world and returns a
    value. *)
Definition M (A : Type) : Type := World -> A * World.

Definition ret {A : Type} (a : A) : M A := fun w => (a, w).

Definition bind {A B : Type} (m : M A) (k : A -> M B) : M B :=
  fun w => let (a, w') := m w in k a w'.

Notation "x <- m ;; k" := (bind m (fun x => k))
  (at level 61, m at next level, right associativity).
Notation "m ;; k" := (bind m (fun _ => k))
  (at level 61, right associativity).

Definition get_this : M t := fun w => (this w, w).

Definition modify_this (f : t -> t) : M unit :=
  fun w => (tt, {| this := f (this w); settings := settings w; log := log w |}).

Definition emit (e : Effect) : M unit :=
  fun w => (tt, {| this := this w; settings := settings w; log := log w ++ [e] |}).

(** [GetConfig(this._extensionUri)]: read at every use. *)
Definition GetConfig : M Config := fun w => (settings w, w).

Definition when (b : bool) (m : M unit) : M unit :=
  if b then m else ret tt.

Fixpoint run_all (ms : list (M unit)) : M unit :=
  match ms with
  | [] => ret tt
  | m :: ms' => m ;; run_all ms'
  end.

Definition with_httpServer (f : HttpServer -> HttpServer) (s : t) : t :=
  {| _httpServer := f (_httpServer s);
     _wsServer := _wsServer s;
     _extensionUri := _extensionUri s;
     _isServerOn := _isServerOn s;
     _workspacePath := _workspacePath s |}.

Definition with_wsServer (f : WSServer -> WSServer) (s : t) : t :=
  {| _httpServer := _httpServer s;
     _wsServer := f (_wsServer s);
     _extensionUri := _extensionUri s;
     _isServerOn := _isServerOn s;
     _workspacePath := _workspacePath s |}.

Definition with_isServerOn (b : bool) (s : t) : t :=
  {| _httpServer := _httpServer s;
     _wsServer := _wsServer s;
     _extensionUri := _extensionUri s;
     _isServerOn := b;
     _workspacePath := _workspacePath s |}.

(** *** Calls into the sub-servers *)

Definition _httpServer_setInjectorWSPort (p : Z) (context : option vscode.Uri)
  : M unit :=
  emit (httpServer_setInjectorWSPort p context) ;;
  modify_this (with_httpServer (fun h =>
    {| http_port := http_port h;
       injectorWSPort := Some p;
       http_starts_pending := http_starts_pending h |})).

Definition _httpServer_start (p : Z) (root : string) : M unit :=
  emit (httpServer_start p root) ;;
  modify_this (with_httpServer (fun h =>
    {| http_port := http_port h;
       injectorWSPort := injectorWSPort h;
       http_starts_pending := S (http_starts_pending h) |})).

Definition _httpServer_close : M unit := emit httpServer_close.

Definition _wsServer_start (p : Z) (root : string)
    (context : option vscode.Uri) : M unit :=
  emit (wsServer_start p root context) ;;
  modify_this (with_wsServer (fun s =>
    {| wsServer_ws_port := wsServer_ws_port s;
       ws_starts_pending := S (ws_starts_pending s) |})).

Definition _wsServer_close : M unit := emit wsServer_close.

Definition _wsServer_refreshBrowsers : M unit := emit wsServer_refreshBrowsers.

(** *** Getters and setters *)

Definition get_port : M Z :=
  s <- get_this ;; ret (http_port (_httpServer s)).

Definition set_port (portNum : Z) : M unit :=
  modify_this (with_httpServer (fun h =>
    {| http_port := portNum;
       injectorWSPort := injectorWSPort h;
       http_starts_pending := http_starts_pending h |})).

Definition get_ws_port : M Z :=
  s <- get_this ;; ret (wsServer_ws_port (_wsServer s)).

Definition set_ws_port (portNum : Z) : M unit :=
  modify_this (with_wsServer (fun s =>
    {| wsServer_ws_port := portNum;
       ws_starts_pending := ws_starts_pending s |})).

Definition isRunning (s : t) : bool := _isServerOn s.

Definition canGetPath (s : t) (path : string) : bool :=
  match _workspacePath s with
  | Some wp => if truthy_string wp then startsWith path wp else false
  | None => false
  end.

Definition getFileRelativeToWorkspace (s : t) (path : string) : string :=
  let workspaceFolder := _workspacePath s in
  match workspaceFolder with
  | Some wf =>
      if truthy_string wf && startsWith path wf then
        replace_char backslash slash (substring_from (String.length wf) path)
      else ""
  | None => ""
  end.

Definition updateConfigurations : M unit := emit statusBar_updateConfigurations.

Definition _reloadOnAnyChange : M bool :=
  c <- GetConfig ;;
  ret (AutoRefreshPreview_eqb (autoRefreshPreview c) onAnyChange).

Definition _reloadOnSave : M bool :=
  c <- GetConfig ;;
  ret (AutoRefreshPreview_eqb (autoRefreshPreview c) onSave).

(** [showServerStatusMessage]: the pop-up is shown when the settings ask
    for it.  The continuation that stores the user's answer runs later
    and changes the settings only; see [settings_changed] below. *)
Definition showServerStatusMessage (message : StatusMessage) : M unit :=
  c <- GetConfig ;;
  when (showServerStatusPopUps c) (emit (showInformationMessage message)).

Definition closeServer : M unit :=
  _httpServer_close ;;
  _wsServer_close ;;
  modify_this (with_isServerOn false) ;;
  emit statusBar_ServerOff ;;
  showServerStatusMessage Server_Closed.

(** [a ?? ""]. *)
Definition or_empty (a : option string) : string :=
  match a with
  | Some s => s
  | None => ""
  end.

Definition openServer (port0 : Z) : M bool :=
  s <- get_this ;;
  match _extensionUri s with
  | Some u =>
      _httpServer_setInjectorWSPort (port0 + 1) (Some u) ;;
      _httpServer_start port0 (or_empty (_workspacePath s)) ;;
      ret true
  | None => ret false
  end.

Definition httpServerConnected : M unit :=
  s <- get_this ;;
  _wsServer_start
    (http_port (_httpServer s) + 1)
    (or_empty (_workspacePath s))
    (_extensionUri s).

Definition wsServerConnected : M unit :=
  modify_this (with_isServerOn true) ;;
  p <- get_port ;;
  emit (statusBar_ServerOn p) ;;
  p1 <- get_port ;;
  showServerStatusMessage (Server_Opened_on_Port p1) ;;
  p2 <- get_port ;;
  emit (fire_onFullyConnected p2).

(** *** The listeners that the constructor registers *)

(** [this._onPortChangeEmitter.fire(e)] reaches the subscribers outside
    the class (recorded as an effect) and the one listener that the
    constructor itself registers on [onPortChange]. *)
Definition onPortChange_listener (e : PortInfo) : M unit :=
  match ws_port e with
  | Some p =>
      when (truthy_number p) (_httpServer_setInjectorWSPort p None)
  | None => ret tt
  end.

Definition _onPortChangeEmitter_fire (e : PortInfo) : M unit :=
  emit (fire_onPortChange e) ;;
  onPortChange_listener e.

Definition _onNewReqProcessed_fire (e : serverMsg) : M unit :=
  emit (fire_onNewReqProcessed e).

(** [e.contentChanges && e.contentChanges.length > 0]: an array, empty
    or not, is truthy. *)
Definition has_content_changes (e : TextDocumentChangeEvent) : bool :=
  match contentChanges e with
  | Some cs => (0 <? List.length cs)%nat
  | None => false
  end.

(** First registration on [vscode.workspace.onDidChangeTextDocument]. *)
Definition onDidChangeTextDocument_listener_1 (e : TextDocumentChangeEvent)
  : M unit :=
  reload <- _reloadOnAnyChange ;;
  when (has_content_changes e && reload) _wsServer_refreshBrowsers.

(** Second registration on [vscode.workspace.onDidChangeTextDocument]. *)
Definition onDidChangeTextDocument_listener_2 (e : TextDocumentChangeEvent)
  : M unit :=
  reload <- _reloadOnAnyChange ;;
  when (has_content_changes e && reload) _wsServer_refreshBrowsers.

Definition onDidSaveTextDocument_listener : M unit :=
  reload <- _reloadOnSave ;;
  when reload _wsServer_refreshBrowsers.

Definition onDidRenameFiles_listener : M unit :=
  a <- _reloadOnAnyChange ;;
  s <- _reloadOnSave ;;
  when (a || s) _wsServer_refreshBrowsers.

Definition onDidDeleteFiles_listener : M unit :=
  a <- _reloadOnAnyChange ;;
  s <- _reloadOnSave ;;
  when (a || s) _wsServer_refreshBrowsers.

Definition onDidCreateFiles_listener : M unit :=
  a <- _reloadOnAnyChange ;;
  s <- _reloadOnSave ;;
  when (a || s) _wsServer_refreshBrowsers.

Definition httpServer_onNewReqProcessed_listener (e : serverMsg) : M unit :=
  _onNewReqProcessed_fire e.

Definition wsServer_onConnected_listener (e : Z) : M unit :=
  _onPortChangeEmitter_fire {| port := None; ws_port := Some e |} ;;
  wsServerConnected.

Definition httpServer_onConnected_listener (e : Z) : M unit :=
  _onPortChangeEmitter_fire {| port := Some e; ws_port := None |} ;;
  httpServerConnected.

(** An event that reaches the server from outside: from the workspace
    or from one of its two sub-servers. *)
Inductive Event : Type :=
| DidChangeTextDocument (e : TextDocumentChangeEvent)
| DidSaveTextDocument
| DidRenameFiles
| DidDeleteFiles
| DidCreateFiles
| HttpNewReqProcessed (e : serverMsg)
| WsConnected (e : Z)
| HttpConnected (e : Z).

(** One [this._register(source.onXxx(listener))] of the constructor. *)
Inductive Registration : Type :=
| on_DidChangeTextDocument (h : TextDocumentChangeEvent -> M unit)
| on_DidSaveTextDocument (h : M unit)
| on_DidRenameFiles (h : M unit)
| on_DidDeleteFiles (h : M unit)
| on_DidCreateFiles (h : M unit)
| on_HttpNewReqProcessed (h : serverMsg -> M unit)
| on_WsConnected (h : Z -> M unit)
| on_HttpConnected (h : Z -> M unit).

(** The registrations on outside event sources, in the order of the
    constructor.  (The registration on the server's own [onPortChange]
    sits between the file events and the sub-server events; it is
    [onPortChange_listener] above.) *)
Definition registrations : list Registration :=
  [ on_DidChangeTextDocument onDidChangeTextDocument_listener_1;
    on_DidChangeTextDocument onDidChangeTextDocument_listener_2;
    on_DidSaveTextDocument onDidSaveTextDocument_listener;
    on_DidRenameFiles onDidRenameFiles_listener;
    on_DidDeleteFiles onDidDeleteFiles_listener;
    on_DidCreateFiles onDidCreateFiles_listener;
    on_HttpNewReqProcessed httpServer_onNewReqProcessed_listener;
    on_WsConnected wsServer_onConnected_listener;
    on_HttpConnected httpServer_onConnected_listener ].

(** What one registered listener does with an event: it runs when the
    event comes from the source it was registered on. *)
Definition deliver (ev : Event) (r : Registration) : M unit :=
  match r, ev with
  | on_DidChangeTextDocument h, DidChangeTextDocument e => h e
  | on_DidSaveTextDocument h, DidSaveTextDocument => h
  | on_DidRenameFiles h, DidRenameFiles => h
  | on_DidDeleteFiles h, DidDeleteFiles => h
  | on_DidCreateFiles h, DidCreateFiles => h
  | on_HttpNewReqProcessed h, HttpNewReqProcessed e => h e
  | on_WsConnected h, WsConnected e => h e
  | on_HttpConnected h, HttpConnected e => h e
  | _, _ => ret tt
  end.

(** An event source calls its listeners in the order of registration. *)
Definition dispatch (ev : Event) : M unit :=
  run_all (map (deliver ev) registrations).

(** *** The constructor *)

(** [new Server(extensionUri)].  [workspacePath] is what
    [GetWorkspacePath()] returns at that moment and [cfg] the settings of
    the editor. *)
Definition new (extensionUri : vscode.Uri) (workspacePath : option string)
    (cfg : Config) : World :=
  let s :=
    {| _httpServer := new_HttpServer;
       _wsServer := new_WSServer;
       _extensionUri := Some extensionUri;
       _isServerOn := false;
       _workspacePath := workspacePath |} in
  let w := {| this := s; settings := cfg; log := [] |} in
  let not_workspacePath :=
    match workspacePath with
    | Some p => negb (truthy_string p)
    | None => true
    end in
  snd (when not_workspacePath (emit (showWarningMessage no_root_warning)) w).

(** *** The server in its surroundings *)

(** What can happen to a server: a caller uses its interface, the
    workspace or a sub-server raises an event, the user edits the
    settings. *)
Inductive Label : Type :=
| call_openServer (p : Z)
| call_closeServer
| call_updateConfigurations
| call_set_port (p : Z)
| call_set_ws_port (p : Z)
| http_bound (p : Z)
| ws_bound (p : Z)
| http_request (m : serverMsg)
| workspace_event (e : Event)
| settings_changed (c : Config).

(** Modelled from the spec: the HTTP sub-server reports a bind only for
    a [start] that is still waiting for one; from then on [port] is the
    bound port.  [close] is not taken to cancel a waiting [start], which
    only allows more runs. *)
Definition http_binds (p : Z) (w : World) : option World :=
  match http_starts_pending (_httpServer (this w)) with
  | O => None
  | S n =>
      Some (snd (modify_this (with_httpServer (fun h =>
        {| http_port := p;
           injectorWSPort := injectorWSPort h;
           http_starts_pending := n |})) w))
  end.

(** Modelled from the spec: the same for the WebSocket sub-server. *)
Definition ws_binds (p : Z) (w : World) : option World :=
  match ws_starts_pending (_wsServer (this w)) with
  | O => None
  | S n =>
      Some (snd (modify_this (with_wsServer (fun s =>
        {| wsServer_ws_port := p;
           ws_starts_pending := n |})) w))
  end.

(** The events that the workspace raises; the two sub-server events
    have labels of their own. *)
Definition is_workspace_event (ev : Event) : bool :=
  match ev with
  | DidChangeTextDocument _ | DidSaveTextDocument | DidRenameFiles
  | DidDeleteFiles | DidCreateFiles => true
  | HttpNewReqProcessed _ | WsConnected _ | HttpConnected _ => false
  end.

(** One step; [None] when the surroundings cannot take it. *)
Definition step (l : Label) (w : World) : option World :=
  match l with
  | call_openServer p => Some (snd (openServer p w))
  | call_closeServer => Some (snd (closeServer w))
  | call_updateConfigurations => Some (snd (updateConfigurations w))
  | call_set_port p => Some (snd (set_port p w))
  | call_set_ws_port p => Some (snd (set_ws_port p w))
  | http_bound p =>
      match http_binds p w with
      | Some w' => Some (snd (dispatch (HttpConnected p) w'))
      | None => None
      end
  | ws_bound p =>
      match ws_binds p w with
      | Some w' => Some (snd (dispatch (WsConnected p) w'))
      | None => None
      end
  | http_request m => Some (snd (dispatch (HttpNewReqProcessed m) w))
  | workspace_event ev =>
      if is_workspace_event ev then Some (snd (dispatch ev w)) else None
  | settings_changed c =>
      Some {| this := this w; settings := c; log := log w |}
  end.

Fixpoint run (ls : list Label) (w : World) : option World :=
  match ls with
  | [] => Some w
  | l :: ls' =>
      match step l w with
      | Some w' => run ls' w'
      | None => None
      end
  end.

(** *** Observations on logs and runs *)

Definition is_refresh (e : Effect) : bool :=
  match e with wsServer_refreshBrowsers => true | _ => false end.

Definition is_fullyConnected (e : Effect) : bool :=
  match e with fire_onFullyConnected _ => true | _ => false end.

Definition is_warning (e : Effect) : bool :=
  match e with showWarningMessage _ => true | _ => false end.

(** Number of effects of a kind in a log. *)
Definition count (f : Effect -> bool) (es : list Effect) : nat :=
  List.length (filter f es).

(** The ports handed to [setInjectorWSPort], in order. *)
Fixpoint injector_calls (es : list Effect) : list Z :=
  match es with
  | [] => []
  | httpServer_setInjectorWSPort p _ :: es' => p :: injector_calls es'
  | _ :: es' => injector_calls es'
  end.

Definition is_open (l : Label) : bool :=
  match l with call_openServer _ => true | _ => false end.

Definition is_http_bound (l : Label) : bool :=
  match l with http_bound _ => true | _ => false end.

Definition is_ws_bound (l : Label) : bool :=
  match l with ws_bound _ => true | _ => false end.

Definition occurrences (f : Label -> bool) (ls : list Label) : nat :=
  List.length (filter f ls).

(** [1] when the extension context is there, [0] when it is not. *)
Definition present (u : option vscode.Uri) : nat :=
  match u with Some _ => 1 | None => 0 end.

(** [1] for [true], [0] for [false]. *)
Definition indicator (b : bool) : nat := if b then 1 else 0.

(** The effects that a computation adds to the log. *)
Definition added (before after : World) : list Effect :=
  skipn (List.length (log before)) (log after).

End Server.

(* ================================================================== *)
(** ** Concrete servers used in the scenarios at the end               *)
(* ================================================================== *)

Module Fixtures.

(** The URI under which the extension is installed. *)
Definition ext : vscode.Uri := vscode.mkUri "/ext/live-server".

(** Settings: reload on any change, no status pop-ups. *)
Definition cfg : Server.Config := Server.mkConfig Server.onAnyChange false.

(** The server object right after construction in the workspace [wp]. *)
Definition server_at (wp : string) : Server.t :=
  Server.this (Server.new ext (Some wp) cfg).

End Fixtures.

(* ================================================================== *)
(** ** class Connection: the remaining members                          *)
(* ================================================================== *)

Module ConnectionOps.

Import JS.

(** A number inside a template literal: for an integer, its decimal
    digits, with a minus sign when it is negative. *)
Definition number_to_string (n : Z) : string :=
  NilEmpty.string_of_int (Z.to_int n).


Definition set_rootPrefix (r : string) (this : Connection.t) : Connection.t :=
  {| Connection._workspace := Connection._workspace this;
     Connection._rootPrefix := r;
     Connection._httpPort := Connection._httpPort this;
     Connection._wsPort := Connection._wsPort this;
     Connection.host := Connection.host this;
     Connection.wsPath := Connection.wsPath this;
     Connection._portAttributes := Connection._portAttributes this |}.

Definition set_wsPath (p : string) (this : Connection.t) : Connection.t :=
  {| Connection._workspace := Connection._workspace this;
     Connection._rootPrefix := Connection._rootPrefix this;
     Connection._httpPort := Connection._httpPort this;
     Connection._wsPort := Connection._wsPort this;
     Connection.host := Connection.host this;
     Connection.wsPath := p;
     Connection._portAttributes := Connection._portAttributes this |}.

(** The text that [constructLocalUri] builds with its template literal
    and hands to [vscode.Uri.parse]; [path ?? ''] for a missing path. *)
Definition local_address (this : Connection.t) (port : Z)
    (path : option string) : string :=
  "http://" ++ Connection.host this ++ ":" ++ number_to_string port
    ++ Server.or_empty path.

(** The listener that the constructor registers on
    [vscode.workspace.onDidChangeConfiguration].  [affects] is the answer
    of [e.affectsConfiguration(SETTINGS_SECTION_ID)] and [validRoot] what
    [PathUtil.GetValidServerRootForWorkspace] resolves to for the
    workspace of the connection at that moment. *)
Definition onDidChangeConfiguration_listener (affects : bool)
    (validRoot : string) (this : Connection.t) : Connection.t :=
  if affects then
    set_rootPrefix
      (match Connection._workspace this with
       | Some _ => validRoot
       | None => ""
       end)
      this
  else this.

(** What the owner of a connection and the editor can do to it. *)
Inductive Op : Type :=
| assign_httpPort (p : Z)
| assign_wsPort (p : Z)
| assign_host (h : string)
| assign_wsPath (p : string)
| call_resetHostToDefault
| configuration_changed (affects : bool) (validRoot : string).

Definition apply (o : Op) (this : Connection.t)
  : Connection.t * list Connection.Effect :=
  match o with
  | assign_httpPort p => (Connection.set_httpPort p this, [])
  | assign_wsPort p => (Connection.set_wsPort p this, [])
  | assign_host h => (Connection.set_host h this, [])
  | assign_wsPath p => (set_wsPath p this, [])
  | call_resetHostToDefault => Connection.resetHostToDefault this
  | configuration_changed affects validRoot =>
      (onDidChangeConfiguration_listener affects validRoot this, [])
  end.

(** A sequence of operations: the connection at the end and all the
    effects, in order. *)
Fixpoint apply_all (os : list Op) (this : Connection.t)
  : Connection.t * list Connection.Effect :=
  match os with
  | [] => (this, [])
  | o :: os' =>
      let (this1, es1) := apply o this in
      let (this2, es2) := apply_all os' this1 in
      (this2, (es1 ++ es2)%list)
  end.

Section WithEditor.

(** Functions of the editor API: [vscode.Uri.parse], [vscode.Uri.file],
    [vscode.Uri.joinPath], and the URI that the promise of
    [vscode.env.asExternalUri] resolves to. *)
Variable Uri_parse : string -> vscode.Uri.
Variable Uri_file : string -> vscode.Uri.
Variable joinPath : vscode.Uri -> string -> vscode.Uri.
Variable asExternalUri : vscode.Uri -> vscode.Uri.

Definition constructLocalUri (this : Connection.t) (port : Z)
    (path : option string) : vscode.Uri :=
  Uri_parse (local_address this port path).


Definition resolveExternalHTTPUri (this : Connection.t) : vscode.Uri :=
  let httpPortUri := constructLocalUri this (Connection.get_httpPort this) None in
  asExternalUri httpPortUri.

Definition resolveExternalWSUri (this : Connection.t) : vscode.Uri :=
  let wsPortUri :=
    constructLocalUri this (Connection.get_wsPort this)
      (Some (Connection.wsPath this)) in
  asExternalUri wsPortUri.

Definition getAppendedURI (this : Connection.t) (path : string) : vscode.Uri :=
  match Connection.rootURI joinPath this with
  | Some r => joinPath r path
  | None => Uri_file path
  end.

End WithEditor.

(** The port of the last [httpPort = p] in a sequence, if there is one. *)
Fixpoint last_httpPort (os : list Op) (acc : option Z) : option Z :=
  match os with
  | [] => acc
  | assign_httpPort p :: os' => last_httpPort os' (Some p)
  | _ :: os' => last_httpPort os' acc
  end.

(** The port of the last [wsPort = p] in a sequence, if there is one. *)
Fixpoint last_wsPort (os : list Op) (acc : option Z) : option Z :=
  match os with
  | [] => acc
  | assign_wsPort p :: os' => last_wsPort os' (Some p)
  | _ :: os' => last_wsPort os' acc
  end.

Definition is_errorMessage (e : Connection.Effect) : bool :=
  match e with Connection.showErrorMessage _ => true | _ => false end.

Definition is_reset (o : Op) : bool :=
  match o with call_resetHostToDefault => true | _ => false end.

(** A change of the configuration that touches the settings of the
    extension. *)
Definition touches_settings (o : Op) : bool :=
  match o with configuration_changed affects _ => affects | _ => false end.

(** [a ?? d] on an optional number. *)
Definition or_else (a : option Z) (d : Z) : Z :=
  match a with Some p => p | None => d end.

End ConnectionOps.

(* ================================================================== *)
(** ** class Server: further observations on runs                       *)
(* ================================================================== *)

Module ServerOps.

Import Server.

Definition is_information (e : Effect) : bool :=
  match e with showInformationMessage _ => true | _ => false end.

Definition is_close (l : Label) : bool :=
  match l with call_closeServer => true | _ => false end.

Definition is_workspace_label (l : Label) : bool :=
  match l with workspace_event _ => true | _ => false end.

(** The payloads fired on [onNewReqProcessed], in order. *)
Fixpoint relayed (es : list Effect) : list serverMsg :=
  match es with
  | [] => []
  | fire_onNewReqProcessed m :: es' => m :: relayed es'
  | _ :: es' => relayed es'
  end.

(** The requests that the HTTP server reports in a run, in order. *)
Fixpoint requests (ls : list Label) : list serverMsg :=
  match ls with
  | [] => []
  | http_request m :: ls' => m :: requests ls'
  | _ :: ls' => requests ls'
  end.

(** A one-bit machine: a bind report of the WebSocket server sets the
    bit, [closeServer] clears it, nothing else touches it. *)
Fixpoint running_after (ls : list Label) (b : bool) : bool :=
  match ls with
  | [] => b
  | ws_bound _ :: ls' => running_after ls' true
  | call_closeServer :: ls' => running_after ls' false
  | _ :: ls' => running_after ls' b
  end.

(** The last port written to the injector along a run: [openServer(p)]
    writes [p + 1], a bind report of the WebSocket server writes its
    port unless that is 0. *)
Fixpoint injector_after (ls : list Label) (i : option Z) : option Z :=
  match ls with
  | [] => i
  | call_openServer p :: ls' => injector_after ls' (Some (p + 1)%Z)
  | ws_bound p :: ls' =>
      injector_after ls' (if JS.truthy_number p then Some p else i)
  | _ :: ls' => injector_after ls' i
  end.

(** The settings keep the policy [never] along a run. *)
Definition policy_stays_never (ls : list Label) : bool :=
  forallb (fun l =>
             match l with
             | settings_changed c =>
                 AutoRefreshPreview_eqb (autoRefreshPreview c) never
             | _ => true
             end) ls.

(** The settings keep the status pop-ups switched off along a run. *)
Definition popups_stay_off (ls : list Label) : bool :=
  forallb (fun l =>
             match l with
             | settings_changed c => negb (showServerStatusPopUps c)
             | _ => true
             end) ls.

(** Whether the policy reloads on an event of the workspace other than a
    document change. *)
Definition reloads (pol : AutoRefreshPreview) : bool :=
  AutoRefreshPreview_eqb pol onAnyChange || AutoRefreshPreview_eqb pol onSave.

(** [a.indexOf(c) >= 0] for a character. *)
Fixpoint contains_char (c : ascii) (s : string) : bool :=
  match s with
  | EmptyString => false
  | String a s' => Ascii.eqb a c || contains_char c s'
  end.

End ServerOps.

(* ================================================================== *)
(** ** Further concrete settings and events for the scenarios           *)
(* ================================================================== *)

Module MoreFixtures.

(** Settings: never reload, status pop-ups on. *)
Definition never_cfg : Server.Config := Server.mkConfig Server.never true.

(** Settings: reload on save, status pop-ups on. *)
Definition loud_cfg : Server.Config := Server.mkConfig Server.onSave true.

(** A document change with one content change. *)
Definition an_edit : Server.Event :=
  Server.DidChangeTextDocument
    (Server.mkTextDocumentChangeEvent (Some ["x"]%string)).

End MoreFixtures.

(* ================================================================== *)
(** * Properties                                                        *)
(* ================================================================== *)

(** ** Strings *)

Module StringFacts.

Import JS.

Lemma truthy_string_true (s : string) : truthy_string s = true <-> s <> "".
Proof.
  destruct s; simpl; split; intro H; try discriminate; try reflexivity.
  now contradiction H.
Qed.

Lemma truthy_string_false (s : string) : truthy_string s = false <-> s = "".
Proof.
  destruct s; simpl; split; intro H; try discriminate; reflexivity.
Qed.

Lemma startsWith_app (r rest : string) : startsWith (r ++ rest) r = true.
Proof.
  induction r as [|a r IH]; simpl; [reflexivity|].
  now rewrite Ascii.eqb_refl, IH.
Qed.

Lemma substring_from_app (r rest : string) :
  substring_from (String.length r) (r ++ rest) = rest.
Proof.
  induction r as [|a r IH]; simpl; [reflexivity | exact IH].
Qed.

Lemma startsWith_split (pre s : string) :
  startsWith s pre = true ->
  s = pre ++ substring_from (String.length pre) s.
Proof.
  revert s; induction pre as [|a pre IH]; intros s H; simpl in *.
  - reflexivity.
  - destruct s as [|b s]; [discriminate|].
    apply andb_true_iff in H as [Hab Hs].
    apply Ascii.eqb_eq in Hab; subst b.
    f_equal. now apply IH.
Qed.

Lemma startsWith_iff (pre s : string) :
  startsWith s pre = true <-> exists rest, s = pre ++ rest.
Proof.
  split.
  - intro H. eexists. now apply startsWith_split.
  - intros [rest ->]. apply startsWith_app.
Qed.

Lemma append_empty_r (s : string) : s ++ "" = s.
Proof.
  induction s as [|a s IH]; simpl; [reflexivity | now rewrite IH].
Qed.

Lemma append_inj_l (r x y : string) : r ++ x = r ++ y -> x = y.
Proof.
  induction r as [|a r IH]; simpl; intro H; [exact H|].
  injection H as H. now apply IH.
Qed.

Lemma replace_char_empty (c d : ascii) (s : string) :
  replace_char c d s = "" <-> s = "".
Proof.
  destruct s; simpl; split; intro H; try discriminate; reflexivity.
Qed.

Lemma replace_char_length (c d : ascii) (s : string) :
  String.length (replace_char c d s) = String.length s.
Proof.
  induction s as [|a s IH]; simpl; [reflexivity | now rewrite IH].
Qed.

End StringFacts.

(** ** PathUtil *)

Module PathUtilFacts.

Import JS StringFacts PathUtil.



Section WithSeparator.

Variable sep : ascii.



















End WithSeparator.

(** After conversion no platform separator is left, unless the platform
    separator is the slash itself. *)
Lemma ConvertToPosixPath_no_sep (sep : ascii) (p : string) :
  sep <> slash ->
  forall n, String.get n (PathUtil.ConvertToPosixPath sep p) <> Some sep.
Proof.
  intros Hsep. unfold PathUtil.ConvertToPosixPath.
  induction p as [|a p IH]; intros n; simpl.
  - destruct n; discriminate.
  - destruct n as [|n]; [|apply IH].
    destruct (Ascii.eqb a sep) eqn:E.
    + intro H. injection H as H. now apply Hsep.
    + intro H. injection H as H. subst a.
      now rewrite Ascii.eqb_refl in E.
Qed.

End PathUtilFacts.

(** ** serverPortAttributesProvider *)

Module PortAttributesFacts.

Import serverPortAttributesProvider.

(** C9.  [providePortAttributes(port, ...)] answers with the [Silent]
    classification exactly when [port] is the stored [wsPort] or the
    stored [httpPort], and with [undefined] exactly when it is neither.
    Both fields start at 0, so a provider that has not been given a port
    yet, on its own or inside a freshly constructed [Connection],
    classifies port 0 as [Silent]. *)
Theorem C9_providePortAttributes_silent_iff_stored_port :
  forall (this : t) (port : Z) (pid : option Z) (commandLine : option string),
    (providePortAttributes this port pid commandLine
       = Some (vscode.mkPortAttributes vscode.Silent)
     <-> (port = wsPort this \/ port = httpPort this))
    /\ (providePortAttributes this port pid commandLine = None
        <-> ~ (port = wsPort this \/ port = httpPort this))
    /\ providePortAttributes new 0 pid commandLine
         = Some (vscode.mkPortAttributes vscode.Silent)
    /\ (forall workspace rootPrefix httpPort0 wsPort0 host,
          providePortAttributes
            (Connection._portAttributes
               (Connection.new workspace rootPrefix httpPort0 wsPort0 host))
            0 pid commandLine
          = Some (vscode.mkPortAttributes vscode.Silent)).
Proof.
  intros this port pid commandLine.
  unfold providePortAttributes.
  destruct (Z.eqb_spec port (wsPort this)) as [Hw|Hw];
    destruct (Z.eqb_spec port (httpPort this)) as [Hh|Hh]; simpl;
    repeat split; intros; auto; try discriminate; try tauto.
Qed.

(** The setters of [Connection] keep the provider in step with the
    connection. *)
Lemma setters_reach_provider (c : Connection.t) (p q : Z) :
  let c' := Connection.set_wsPort q (Connection.set_httpPort p c) in
  Connection.get_httpPort c' = p /\ Connection.get_wsPort c' = q /\
  httpPort (Connection._portAttributes c') = p /\
  wsPort (Connection._portAttributes c') = q.
Proof. repeat split. Qed.

End PortAttributesFacts.

(** ** Connection *)

Module ConnectionFacts.

Import JS StringFacts PathUtilFacts.

Section WithPlatform.

Variable sep : ascii.
Variable joinPath : vscode.Uri -> string -> vscode.Uri.

(** Without a workspace there is no root, and no path is relative to
    it. *)
Lemma getFileRelativeToWorkspace_no_workspace (c : Connection.t) (p : string) :
  Connection._workspace c = None ->
  Connection.rootPath joinPath c = None /\
  Connection.getFileRelativeToWorkspace sep joinPath c p = None.
Proof.
  intro H.
  unfold Connection.getFileRelativeToWorkspace, Connection.rootPath,
    Connection.rootURI, Connection.workspace.
  now rewrite H.
Qed.


End WithPlatform.

Lemma resetHostToDefault_at_default (c : Connection.t) :
  Connection.host c = DEFAULT_HOST ->
  Connection.resetHostToDefault c = (c, []).
Proof.
  intro H. unfold Connection.resetHostToDefault.
  now rewrite H, String.eqb_refl.
Qed.

Lemma resetHostToDefault_elsewhere (c : Connection.t) :
  Connection.host c <> DEFAULT_HOST ->
  Connection.resetHostToDefault c
  = (Connection.set_host DEFAULT_HOST c,
     [ Connection.showErrorMessage
         (Connection.ipCannotConnect (Connection.host c) DEFAULT_HOST);
       Connection.fire_onShouldResetInitHost DEFAULT_HOST ]).
Proof.
  intro H. unfold Connection.resetHostToDefault.
  apply String.eqb_neq in H. now rewrite H.
Qed.

Lemma host_changes_same (c : Connection.t) : Connection.host_changes c c = 0.
Proof. unfold Connection.host_changes. now rewrite String.eqb_refl. Qed.

(** C4, as the code has it.  Two calls of [resetHostToDefault()] in a
    row leave the connection as one call does, and the second call does
    nothing: no host change, no message, no notification.  Starting from
    a host other than the default, the two calls together change the
    host exactly once and fire [onShouldResetInitHost] exactly once,
    with the default host.  Starting from the default host, a call
    changes nothing and fires nothing. *)
Theorem C4_resetHostToDefault_idempotent :
  forall c : Connection.t,
    let r1 := Connection.resetHostToDefault c in
    let r2 := Connection.resetHostToDefault (fst r1) in
    fst r2 = fst r1 /\ snd r2 = [] /\
    Connection.host (fst r1) = DEFAULT_HOST /\
    (Connection.host c <> DEFAULT_HOST ->
       Connection.notifications (snd r1 ++ snd r2) = [DEFAULT_HOST] /\
       Connection.host_changes c (fst r1)
         + Connection.host_changes (fst r1) (fst r2) = 1) /\
    (Connection.host c = DEFAULT_HOST ->
       fst r1 = c /\ snd r1 = [] /\
       Connection.notifications (snd r1 ++ snd r2) = [] /\
       Connection.host_changes c (fst r1)
         + Connection.host_changes (fst r1) (fst r2) = 0).
Proof.
  intros c. cbv zeta.
  destruct (string_dec (Connection.host c) DEFAULT_HOST) as [E|E].
  - (* already the default host *)
    rewrite (resetHostToDefault_at_default c E). cbn [fst snd].
    rewrite (resetHostToDefault_at_default c E). cbn [fst snd].
    rewrite host_changes_same.
    split; [reflexivity|]. split; [reflexivity|]. split; [exact E|].
    split; [intros H'; now contradiction H' | intros _; repeat split].
  - (* another host *)
    rewrite (resetHostToDefault_elsewhere c E). cbn [fst snd].
    rewrite resetHostToDefault_at_default by reflexivity. cbn [fst snd].
    rewrite host_changes_same.
    assert (Hc : Connection.host_changes c (Connection.set_host DEFAULT_HOST c) = 1).
    { unfold Connection.host_changes. cbn [Connection.host Connection.set_host].
      apply String.eqb_neq in E. now rewrite E. }
    rewrite Hc.
    split; [reflexivity|]. split; [reflexivity|]. split; [reflexivity|].
    split; [intros _; split; reflexivity | intros H'; now contradiction E].
Qed.

End ConnectionFacts.

(** ** Server *)

Module ServerFacts.

Import JS StringFacts Server.

Local Open Scope list_scope.

(** *** Logs *)

Lemma count_snoc (f : Effect -> bool) (es : list Effect) (e : Effect) :
  count f (es ++ [e]) = count f es + (if f e then 1 else 0).
Proof.
  unfold count. rewrite filter_app, length_app. simpl.
  now destruct (f e).
Qed.

Lemma injector_calls_snoc (es : list Effect) (e : Effect) :
  injector_calls (es ++ [e])
  = injector_calls es
    ++ match e with
       | httpServer_setInjectorWSPort p _ => [p]
       | _ => []
       end.
Proof.
  induction es as [|a es IH]; simpl.
  - destruct e; reflexivity.
  - rewrite IH. destruct a; reflexivity.
Qed.

Lemma added_app (w w' : World) (es : list Effect) :
  log w' = log w ++ es -> added w w' = es.
Proof.
  intro H. unfold added. rewrite H.
  rewrite skipn_app, skipn_all, Nat.sub_diag. reflexivity.
Qed.

Lemma occurrences_cons (f : Label -> bool) (l : Label) (ls : list Label) :
  occurrences f (l :: ls) = (if f l then 1 else 0) + occurrences f ls.
Proof. unfold occurrences. simpl. now destruct (f l). Qed.

Lemma occurrences_app (f : Label -> bool) (ls1 ls2 : list Label) :
  occurrences f (ls1 ++ ls2) = occurrences f ls1 + occurrences f ls2.
Proof. unfold occurrences. now rewrite filter_app, length_app. Qed.

(** Take a world apart into its fields. *)
Ltac open_world w :=
  let hp := fresh "hp" in let inj := fresh "inj" in
  let hpend := fresh "hpend" in let wsp := fresh "wsp" in
  let wpend := fresh "wpend" in let uri := fresh "uri" in
  let on := fresh "on" in let wpath := fresh "wpath" in
  let pol := fresh "pol" in let pops := fresh "pops" in
  let lg := fresh "lg" in
  destruct w as [[[hp inj hpend] [wsp wpend] uri on wpath] [pol pops] lg].

(** *** The reload policy on document changes *)

(** What the two listeners on [onDidChangeTextDocument] do with one
    event: under [onAnyChange] and with content changes, each of them
    calls [refreshBrowsers]; otherwise neither does. *)
Lemma dispatch_DidChangeTextDocument (w : World) (e : TextDocumentChangeEvent) :
  snd (dispatch (DidChangeTextDocument e) w)
  = {| this := this w;
       settings := settings w;
       log := log w ++
              (if has_content_changes e
                  && AutoRefreshPreview_eqb
                       (autoRefreshPreview (settings w)) onAnyChange
               then [wsServer_refreshBrowsers; wsServer_refreshBrowsers]
               else []) |}.
Proof.
  open_world w. destruct e as [[cs|]]; [destruct cs as [|c cs]|];
    destruct pol; cbn; rewrite ?app_nil_r, <- ?app_assoc; reflexivity.
Qed.

(** C1, as the code has it.  The constructor registers the same listener
    on [onDidChangeTextDocument] twice.  For an event with a non-empty
    content-change list under the policy [onAnyChange] the server
    therefore calls [WsServer.refreshBrowsers] twice, not once; for an
    event with an empty (or missing) content-change list, or under any
    other policy, it calls it not at all.  The last part of the statement
    evaluates a freshly constructed server on one event with one
    content change. *)
Theorem C1_document_change_reload_count :
  (forall (w : World) (e : TextDocumentChangeEvent),
     count is_refresh (added w (snd (dispatch (DidChangeTextDocument e) w)))
     = if has_content_changes e
          && AutoRefreshPreview_eqb (autoRefreshPreview (settings w)) onAnyChange
       then 2 else 0)
  /\ (forall (u : vscode.Uri) (wp : option string) (pops : bool),
        count is_refresh
          (added (new u wp (mkConfig onAnyChange pops))
             (snd (dispatch
                     (DidChangeTextDocument
                        (mkTextDocumentChangeEvent (Some ["x"])))
                     (new u wp (mkConfig onAnyChange pops)))))
        = 2).
Proof.
  assert (G : forall (w : World) (e : TextDocumentChangeEvent),
     count is_refresh (added w (snd (dispatch (DidChangeTextDocument e) w)))
     = if has_content_changes e
          && AutoRefreshPreview_eqb (autoRefreshPreview (settings w)) onAnyChange
       then 2 else 0).
  { intros w e.
    rewrite (added_app w _ _
      (f_equal log (dispatch_DidChangeTextDocument w e))).
    now destruct (has_content_changes e && _). }
  split; [exact G|].
  intros u wp pops. rewrite G.
  destruct wp as [[|c s]|]; reflexivity.
Qed.

(** The same count for the other policies and for events without
    content changes, spelled out. *)
Lemma document_change_no_reload (w : World) (e : TextDocumentChangeEvent) :
  autoRefreshPreview (settings w) <> onAnyChange
  \/ contentChanges e = Some [] \/ contentChanges e = None ->
  added w (snd (dispatch (DidChangeTextDocument e) w)) = [].
Proof.
  intros H.
  rewrite (added_app w _ _
    (f_equal log (dispatch_DidChangeTextDocument w e))).
  unfold has_content_changes.
  destruct H as [H|[H|H]].
  - destruct (autoRefreshPreview (settings w)); try reflexivity;
      [now contradiction H | now rewrite andb_false_r ..].
  - now rewrite H.
  - now rewrite H.
Qed.

(** A save under [onSave] reloads once. *)
Lemma dispatch_DidSaveTextDocument (w : World) :
  added w (snd (dispatch DidSaveTextDocument w))
  = if AutoRefreshPreview_eqb (autoRefreshPreview (settings w)) onSave
    then [wsServer_refreshBrowsers] else [].
Proof.
  apply added_app. open_world w. destruct pol; cbn;
    rewrite ?app_nil_r; reflexivity.
Qed.

(** *** openServer *)

Lemma openServer_with_context (w : World) (p : Z) (u : vscode.Uri) :
  _extensionUri (this w) = Some u ->
  openServer p w
  = (true,
     {| this :=
          with_httpServer (fun h =>
            {| http_port := http_port h;
               injectorWSPort := Some (p + 1)%Z;
               http_starts_pending := S (http_starts_pending h) |}) (this w);
        settings := settings w;
        log := log w ++
               [ httpServer_setInjectorWSPort (p + 1) (Some u);
                 httpServer_start p (or_empty (_workspacePath (this w))) ] |}).
Proof.
  open_world w. cbn. intros ->. cbn. now rewrite <- app_assoc.
Qed.

Lemma openServer_without_context (w : World) (p : Z) :
  _extensionUri (this w) = None -> openServer p w = (false, w).
Proof. open_world w. cbn. now intros ->. Qed.

(** C6.  [openServer(port)] returns [false] if and only if there is no
    extension context, and then does nothing.  Otherwise it returns
    [true] after exactly two calls, in this order: it sets the injector
    WebSocket port of the HTTP server to [port + 1], then starts the HTTP
    server on [port] (with the workspace path, or the empty string, as
    root). *)
Theorem C6_openServer :
  forall (w : World) (p : Z),
    (fst (openServer p w) = false <-> _extensionUri (this w) = None)
    /\ (_extensionUri (this w) = None -> snd (openServer p w) = w)
    /\ (forall u, _extensionUri (this w) = Some u ->
          fst (openServer p w) = true
          /\ added w (snd (openServer p w))
             = [ httpServer_setInjectorWSPort (p + 1) (Some u);
                 httpServer_start p (or_empty (_workspacePath (this w))) ]
          /\ injectorWSPort (_httpServer (this (snd (openServer p w))))
             = Some (p + 1)%Z
          /\ http_starts_pending (_httpServer (this (snd (openServer p w))))
             = S (http_starts_pending (_httpServer (this w)))).
Proof.
  intros w p. split; [|split].
  - destruct (_extensionUri (this w)) as [u|] eqn:E.
    + rewrite (openServer_with_context w p u E). simpl. split; discriminate.
    + rewrite (openServer_without_context w p E). simpl. split; reflexivity.
  - intros E. now rewrite (openServer_without_context w p E).
  - intros u E. rewrite (openServer_with_context w p u E). cbn [fst snd].
    split; [reflexivity|]. split; [now apply added_app|].
    split; reflexivity.
Qed.

(** *** One step of the server in its surroundings *)

(** Run a step on a world whose relevant fields are known and read the
    result off. *)
Ltac settle H :=
  cbn in H;
  first
    [ discriminate H
    | injection H as <-; cbn -[count]; rewrite ?count_snoc; cbn -[count];
      repeat split; auto; try lia; try discriminate ].

(** What a single step does to the quantities that the properties below
    speak about. *)
Lemma step_accounting (l : Label) (w w' : World) :
  step l w = Some w' ->
  count is_fullyConnected (log w')
    = count is_fullyConnected (log w) + indicator (is_ws_bound l)
  /\ count is_warning (log w') = count is_warning (log w)
  /\ ws_starts_pending (_wsServer (this w')) + indicator (is_ws_bound l)
     = ws_starts_pending (_wsServer (this w)) + indicator (is_http_bound l)
  /\ http_starts_pending (_httpServer (this w')) + indicator (is_http_bound l)
     = http_starts_pending (_httpServer (this w))
       + indicator (is_open l) * present (_extensionUri (this w))
  /\ _extensionUri (this w') = _extensionUri (this w)
  /\ _workspacePath (this w') = _workspacePath (this w)
  /\ (_isServerOn (this w') = true ->
      _isServerOn (this w) = true \/ is_ws_bound l = true)
  /\ (is_ws_bound l = true -> _isServerOn (this w') = true).
Proof.
  intros H. open_world w.
  destruct l as [p| | |p|p|p|p|m|ev|c].
  - (* openServer *)
    destruct uri; settle H.
  - (* closeServer *)
    destruct pops; settle H.
  - settle H.
  - settle H.
  - settle H.
  - (* the HTTP server reports its bind *)
    destruct hpend as [|n]; settle H.
  - (* the WebSocket server reports its bind *)
    unfold step, dispatch, registrations in H. cbn [map deliver run_all] in H.
    unfold wsServer_onConnected_listener, _onPortChangeEmitter_fire,
      onPortChange_listener in H. cbn [ws_port] in H.
    destruct wpend as [|n], (truthy_number p), pops; settle H.
  - settle H.
  - (* a workspace event *)
    destruct ev as [[[[|x cs]|]]| | | | | | |]; destruct pol; settle H.
  - settle H.
Qed.

(** *** Runs *)

Lemma run_app (ls1 ls2 : list Label) (w : World) :
  run (ls1 ++ ls2) w
  = match run ls1 w with
    | Some w1 => run ls2 w1
    | None => None
    end.
Proof.
  revert w; induction ls1 as [|l ls1 IH]; intros w; simpl; [reflexivity|].
  destruct (step l w); [apply IH | reflexivity].
Qed.

(** The accounting of [step_accounting], summed over a run from any
    world. *)
Lemma run_accounting (ls : list Label) (w w' : World) :
  run ls w = Some w' ->
  count is_fullyConnected (log w')
    = count is_fullyConnected (log w) + occurrences is_ws_bound ls
  /\ count is_warning (log w') = count is_warning (log w)
  /\ ws_starts_pending (_wsServer (this w')) + occurrences is_ws_bound ls
     = ws_starts_pending (_wsServer (this w)) + occurrences is_http_bound ls
  /\ http_starts_pending (_httpServer (this w')) + occurrences is_http_bound ls
     = http_starts_pending (_httpServer (this w))
       + occurrences is_open ls * present (_extensionUri (this w))
  /\ _extensionUri (this w') = _extensionUri (this w)
  /\ _workspacePath (this w') = _workspacePath (this w)
  /\ (_isServerOn (this w') = true ->
      _isServerOn (this w) = true \/ 1 <= occurrences is_ws_bound ls).
Proof.
  revert w; induction ls as [|l ls IH]; intros w H; simpl in H.
  - injection H as <-. unfold occurrences; simpl.
    repeat split; auto; lia.
  - destruct (step l w) as [w1|] eqn:E; [|discriminate].
    destruct (step_accounting l w w1 E)
      as (F1 & W1 & S1 & H1 & U1 & P1 & O1 & _).
    destruct (IH w1 H) as (F2 & W2 & S2 & H2 & U2 & P2 & O2).
    rewrite !occurrences_cons. rewrite U1 in H2.
    unfold indicator in *.
    repeat split; try congruence; try lia.
    intros On. destruct (O2 On) as [On1|]; [|lia].
    destruct (O1 On1) as [|B]; [now left|right].
    rewrite B. lia.
Qed.

(** A server made by its constructor, before anything happens. *)
Lemma new_fields (u : vscode.Uri) (wp : option string) (cfg : Config) :
  this (new u wp cfg)
  = {| _httpServer := new_HttpServer; _wsServer := new_WSServer;
       _extensionUri := Some u; _isServerOn := false;
       _workspacePath := wp |}
  /\ settings (new u wp cfg) = cfg
  /\ count is_fullyConnected (log (new u wp cfg)) = 0.
Proof. destruct wp as [[|c s]|]; repeat split. Qed.

(** *** The port of the WebSocket server reaches the injector *)

(** C2.  When the WebSocket sub-server reports the port [p] that it is
    bound to (a listening port is never 0; [p] need not be the port that
    was asked for), the server hands exactly [p] to the HTTP server by
    one call of [setInjectorWSPort], and from then on the injector of
    the HTTP server advertises [p]. *)
Theorem C2_ws_bound_port_reaches_injector :
  forall (w w' : World) (p : Z),
    p <> 0%Z ->
    step (ws_bound p) w = Some w' ->
    injector_calls (added w w') = [p]
    /\ injectorWSPort (_httpServer (this w')) = Some p
    /\ wsServer_ws_port (_wsServer (this w')) = p.
Proof.
  intros w w' p Hp H. open_world w.
  unfold step, dispatch, registrations in H. cbn [map deliver run_all] in H.
  unfold wsServer_onConnected_listener, _onPortChangeEmitter_fire,
    onPortChange_listener in H. cbn [ws_port] in H.
  assert (T : truthy_number p = true).
  { unfold truthy_number. apply Z.eqb_neq in Hp. now rewrite Hp. }
  rewrite T in H.
  destruct wpend as [|n]; [discriminate|].
  destruct pops; cbn in H; injection H as <-; cbn [this _httpServer
    with_httpServer injectorWSPort _wsServer with_wsServer wsServer_ws_port];
    (split; [|split; reflexivity]);
    unfold added; cbn [log]; rewrite <- !app_assoc;
    rewrite skipn_app, skipn_all, Nat.sub_diag; reflexivity.
Qed.

(** Nothing but [openServer] and a bind report of the WebSocket server
    touches the injector. *)
Lemma injector_kept (l : Label) (w w' : World) :
  step l w = Some w' ->
  is_open l = false -> is_ws_bound l = false ->
  injectorWSPort (_httpServer (this w'))
  = injectorWSPort (_httpServer (this w)).
Proof.
  intros H Ho Hw. open_world w.
  destruct l as [p| | |p|p|p|p|m|ev|c]; try discriminate.
  - destruct pops; settle H.
  - settle H.
  - settle H.
  - settle H.
  - destruct hpend as [|n]; settle H.
  - settle H.
  - destruct ev as [[[[|x cs]|]]| | | | | | |]; destruct pol; settle H.
  - settle H.
Qed.

(** *** Both binds come before [onFullyConnected] *)

(** C5.  Take any run of a server made by its constructor.
    [onFullyConnected] has fired once for every bind report of the
    WebSocket server and for nothing else; every such report answers a
    start that was issued on a bind report of the HTTP server, and every
    report of the HTTP server answers a call of [openServer].  So once
    no start is waiting for its bind, [onFullyConnected] has fired
    exactly once per call of [openServer]; a step that fires it comes
    after a bind report of the HTTP server and is itself the bind report
    of the WebSocket server; the step at which [isServerOn] turns true
    is such a step; and [isServerOn] is true only when both sub-servers
    have reported a bind. *)
Theorem C5_onFullyConnected_once_after_both_binds :
  forall (u : vscode.Uri) (wp : option string) (cfg : Config)
         (ls : list Label) (w : World),
    run ls (new u wp cfg) = Some w ->
    count is_fullyConnected (log w) = occurrences is_ws_bound ls
    /\ occurrences is_ws_bound ls + ws_starts_pending (_wsServer (this w))
       = occurrences is_http_bound ls
    /\ occurrences is_http_bound ls
         + http_starts_pending (_httpServer (this w))
       = occurrences is_open ls
    /\ (ws_starts_pending (_wsServer (this w)) = 0 ->
        http_starts_pending (_httpServer (this w)) = 0 ->
        count is_fullyConnected (log w) = occurrences is_open ls)
    /\ (forall ls1 l ls2 w1 w2,
          ls = ls1 ++ l :: ls2 ->
          run ls1 (new u wp cfg) = Some w1 ->
          step l w1 = Some w2 ->
          (count is_fullyConnected (log w2)
             = count is_fullyConnected (log w1) + indicator (is_ws_bound l))
          /\ (_isServerOn (this w1) = false -> _isServerOn (this w2) = true ->
              is_ws_bound l = true)
          /\ (is_ws_bound l = true ->
              _isServerOn (this w2) = true
              /\ 1 <= occurrences is_http_bound ls1
              /\ 1 <= occurrences is_open ls1))
    /\ (isRunning (this w) = true ->
        1 <= occurrences is_ws_bound ls /\ 1 <= occurrences is_http_bound ls).
Proof.
  intros u wp cfg ls w H.
  destruct (new_fields u wp cfg) as (N & _ & F0).
  destruct (run_accounting ls _ _ H) as (F & _ & S & P & _ & _ & On).
  rewrite N in S, P, On. cbn in S, P, On. rewrite F0 in F.
  split; [lia|]. split; [lia|]. split; [lia|]. split; [intros; lia|]. split.
  - (* any step inside the run *)
    intros ls1 l ls2 w1 w2 Hsplit Hrun1 Hstep.
    destruct (step_accounting l w1 w2 Hstep)
      as (F1 & _ & S1 & _ & _ & _ & O1 & B1).
    destruct (run_accounting ls1 _ _ Hrun1) as (_ & _ & S2 & P2 & _).
    rewrite N in S2, P2. cbn in S2, P2.
    split; [exact F1|]. split.
    + intros Off On2.
      destruct (O1 On2) as [On1|]; [congruence | assumption].
    + intros B. split; [now apply B1|].
      rewrite B in S1. unfold indicator in S1.
      destruct l; try discriminate. cbn in S1. lia.
  - intros R. unfold isRunning in R.
    destruct (On R) as [|]; [discriminate | lia].
Qed.

(** *** The extension context is always there *)

(** C8.  The constructor stores the extension URI that it is given and no
    method assigns the field again.  So in every state that a constructed
    server can reach the field is set, and [openServer(port)] returns
    [true] for every port: its [false] branch is never taken. *)
Theorem C8_openServer_always_true_after_constructor :
  forall (u : vscode.Uri) (wp : option string) (cfg : Config)
         (ls : list Label) (w : World) (p : Z),
    run ls (new u wp cfg) = Some w ->
    _extensionUri (this w) = Some u
    /\ fst (openServer p w) = true.
Proof.
  intros u wp cfg ls w p H.
  destruct (new_fields u wp cfg) as (N & _ & _).
  destruct (run_accounting ls _ _ H) as (_ & _ & _ & _ & U & _).
  rewrite N in U. cbn in U.
  split; [exact U|].
  now rewrite (openServer_with_context w p u U).
Qed.

(** *** No workspace path *)

Lemma canGetPath_without_workspacePath (s : t) (p : string) :
  _workspacePath s = None ->
  canGetPath s p = false /\ getFileRelativeToWorkspace s p = "".
Proof.
  intros H. unfold canGetPath, getFileRelativeToWorkspace. now rewrite H.
Qed.

(** C7.  A server constructed when no workspace path is known shows the
    warning once, in the constructor.  In every state it can reach from
    there no further warning has been shown, [canGetPath(p)] is [false]
    and [getFileRelativeToWorkspace(p)] is the empty string for every
    path [p], and [openServer(port)] succeeds: it starts the HTTP server
    on [port] with the empty string as root. *)
Theorem C7_no_workspace_path :
  forall (u : vscode.Uri) (cfg : Config) (ls : list Label) (w : World)
         (p : string) (port0 : Z),
    run ls (new u None cfg) = Some w ->
    log (new u None cfg) = [showWarningMessage no_root_warning]
    /\ count is_warning (log w) = 1
    /\ canGetPath (this w) p = false
    /\ getFileRelativeToWorkspace (this w) p = ""
    /\ fst (openServer port0 w) = true
    /\ added w (snd (openServer port0 w))
       = [ httpServer_setInjectorWSPort (port0 + 1) (Some u);
           httpServer_start port0 "" ].
Proof.
  intros u cfg ls w p port0 H.
  destruct (run_accounting ls _ _ H) as (_ & W & _ & _ & U & P & _).
  cbn in U, P.
  destruct (canGetPath_without_workspacePath (this w) p P) as (C & G).
  split; [reflexivity|]. split; [rewrite W; reflexivity|].
  split; [exact C|]. split; [exact G|].
  rewrite (openServer_with_context w port0 u U). cbn [fst snd].
  split; [reflexivity|].
  apply added_app. cbn [log]. now rewrite P.
Qed.

(** *** canGetPath and getFileRelativeToWorkspace *)

(** C10, as the code has it.  For every server state and every path [p],
    [getFileRelativeToWorkspace(p)] is the empty string exactly when
    [canGetPath(p)] is [false] or [p] is the workspace path itself; in
    particular [canGetPath(p) = false] implies
    [getFileRelativeToWorkspace(p) = ''].  (At the workspace path itself
    [canGetPath] is [true] although the relative path is empty.) *)
Theorem C10_relative_path_empty_iff :
  forall (s : t) (p : string),
    (getFileRelativeToWorkspace s p = ""
     <-> (canGetPath s p = false \/ _workspacePath s = Some p))
    /\ (canGetPath s p = false -> getFileRelativeToWorkspace s p = "").
Proof.
  intros s p. unfold getFileRelativeToWorkspace, canGetPath.
  destruct (_workspacePath s) as [wf|]; [|split; [split|]; auto].
  destruct (truthy_string wf) eqn:T; cbn [andb].
  - destruct (startsWith p wf) eqn:E.
    + split; [|discriminate].
      rewrite replace_char_empty.
      pose proof (startsWith_split wf p E) as Hp.
      split.
      * intros Z. right. rewrite Z, append_empty_r in Hp. now subst.
      * intros [F|F]; [discriminate|]. injection F as ->.
        rewrite <- (append_empty_r p) at 2. apply substring_from_app.
    + split; [split|]; auto.
  - split; [split|]; auto.
Qed.

End ServerFacts.

(** * The properties at work on concrete servers and connections *)

Module Scenarios.

Import JS Fixtures.

Local Open Scope Z_scope.



(** A connection on another host is reset once; the second call finds
    the default host and does nothing. *)
Lemma C4_witness :
  let c := Connection.new None "" 3000 3001 "0.0.0.0" in
  let r1 := Connection.resetHostToDefault c in
  let r2 := Connection.resetHostToDefault (fst r1) in
  Connection.host c <> DEFAULT_HOST
  /\ Connection.notifications (snd r1 ++ snd r2)%list = [DEFAULT_HOST]
  /\ (Connection.host_changes c (fst r1)
      + Connection.host_changes (fst r1) (fst r2) = 1)%nat.
Proof.
  intros c r1 r2.
  assert (N : Connection.host c <> DEFAULT_HOST) by discriminate.
  split; [exact N|].
  exact (proj1 (proj2 (proj2 (proj2
    (ConnectionFacts.C4_resetHostToDefault_idempotent c)))) N).
Defined.

(** The claim as written fails on a connection that already has the
    default host: two calls change the host zero times and fire nothing,
    not once each. *)
Lemma C4_counterexample :
  let c := Connection.new None "" 3000 3001 DEFAULT_HOST in
  let r1 := Connection.resetHostToDefault c in
  let r2 := Connection.resetHostToDefault (fst r1) in
  Connection.notifications (snd r1 ++ snd r2)%list = []
  /\ (Connection.host_changes c (fst r1)
      + Connection.host_changes (fst r1) (fst r2) = 0)%nat
  /\ ~ (List.length (Connection.notifications (snd r1 ++ snd r2)%list) = 1%nat
        /\ (Connection.host_changes c (fst r1)
            + Connection.host_changes (fst r1) (fst r2) = 1)%nat).
Proof.
  cbv zeta. split; [reflexivity|]. split; [reflexivity|].
  intros [H _]. vm_compute in H. discriminate H.
Qed.

(** [openServer(8080)], HTTP binds 8080, the WebSocket server finds 8081
    taken and binds 8082: the injector advertises 8082. *)
Lemma C2_witness :
  exists w w' : Server.World,
    Server.run [Server.call_openServer 8080; Server.http_bound 8080]
      (Server.new ext (Some "/w") cfg) = Some w
    /\ 8082 <> 0
    /\ Server.step (Server.ws_bound 8082) w = Some w'
    /\ Server.injector_calls (Server.added w w') = [8082]
    /\ Server.injectorWSPort (Server._httpServer (Server.this w')) = Some 8082
    /\ Server.wsServer_ws_port (Server._wsServer (Server.this w')) = 8082.
Proof.
  eexists. eexists.
  split; [reflexivity|]. split; [discriminate|]. split; [reflexivity|].
  apply ServerFacts.C2_ws_bound_port_reaches_injector;
    [discriminate | reflexivity].
Defined.

(** One call of [openServer], both binds reported: one
    [onFullyConnected], and the server is running. *)
Lemma C5_witness :
  let ls := [Server.call_openServer 8080; Server.http_bound 8080;
             Server.ws_bound 8081] in
  exists w : Server.World,
    Server.run ls (Server.new ext (Some "/w") cfg) = Some w
    /\ Server.count Server.is_fullyConnected (Server.log w) = 1%nat
    /\ Server.occurrences Server.is_open ls = 1%nat
    /\ Server.isRunning (Server.this w) = true.
Proof.
  intros ls. eexists. split; [reflexivity|].
  split; [|split; reflexivity].
  rewrite (proj1 (ServerFacts.C5_onFullyConnected_once_after_both_binds
                    ext (Some "/w") cfg ls _ eq_refl)).
  reflexivity.
Defined.

(** Before the WebSocket server reports its bind nothing has fired and
    the server is not running. *)
Example not_running_before_ws_bind :
  exists w : Server.World,
    Server.run [Server.call_openServer 8080; Server.http_bound 8080]
      (Server.new ext (Some "/w") cfg) = Some w
    /\ Server.count Server.is_fullyConnected (Server.log w) = 0%nat
    /\ Server.isRunning (Server.this w) = false.
Proof. eexists. repeat split. Qed.

(** [openServer(8080)] on a fresh server. *)
Lemma C6_witness :
  let w := Server.new ext (Some "/w") cfg in
  Server._extensionUri (Server.this w) = Some ext
  /\ fst (Server.openServer 8080 w) = true
  /\ Server.added w (snd (Server.openServer 8080 w))
     = [ Server.httpServer_setInjectorWSPort 8081 (Some ext);
         Server.httpServer_start 8080 "/w" ].
Proof.
  intros w.
  assert (U : Server._extensionUri (Server.this w) = Some ext) by reflexivity.
  split; [exact U|].
  destruct (proj2 (proj2 (ServerFacts.C6_openServer w 8080)) ext U)
    as (T & A & _).
  split; [exact T | exact A].
Defined.

(** No workspace: the warning of the constructor stays the only one. *)
Lemma C7_witness :
  let ls := [Server.call_openServer 3000; Server.http_bound 3000;
             Server.ws_bound 3001;
             Server.workspace_event Server.DidSaveTextDocument] in
  exists w : Server.World,
    Server.run ls (Server.new ext None cfg) = Some w
    /\ Server.count Server.is_warning (Server.log w) = 1%nat
    /\ Server.canGetPath (Server.this w) "/x/index.html" = false
    /\ Server.getFileRelativeToWorkspace (Server.this w) "/x/index.html" = ""
    /\ fst (Server.openServer 3000 w) = true.
Proof.
  intros ls. eexists. split; [reflexivity|].
  destruct (ServerFacts.C7_no_workspace_path
              ext cfg ls _ "/x/index.html" 3000 eq_refl)
    as (_ & W & C & G & O & _).
  repeat split; assumption.
Defined.

(** After opening and closing, [openServer] still returns [true]. *)
Lemma C8_witness :
  let ls := [Server.call_openServer 5500; Server.call_closeServer] in
  exists w : Server.World,
    Server.run ls (Server.new ext (Some "/w") cfg) = Some w
    /\ fst (Server.openServer 5501 w) = true.
Proof.
  intros ls. eexists. split; [reflexivity|].
  exact (proj2 (ServerFacts.C8_openServer_always_true_after_constructor
                  ext (Some "/w") cfg ls _ 5501 eq_refl)).
Defined.

(** The claim as written fails at the workspace path itself:
    [canGetPath] is [true] there, although the relative path is empty
    and the path equals the workspace path. *)
Lemma C10_counterexample :
  Server.canGetPath (server_at "/w") "/w" = true
  /\ Server.getFileRelativeToWorkspace (server_at "/w") "/w" = ""
  /\ ~ (Server.canGetPath (server_at "/w") "/w" = false
        <-> (Server.getFileRelativeToWorkspace (server_at "/w") "/w" = ""
             \/ Server._workspacePath (server_at "/w") = Some "/w")).
Proof.
  split; [reflexivity|]. split; [reflexivity|].
  intros [_ H]. specialize (H (or_introl eq_refl)). discriminate H.
Qed.

(** Outside the workspace both helpers say so. *)
Lemma C10_witness :
  Server.canGetPath (server_at "/w") "/elsewhere/a.html" = false
  /\ Server.getFileRelativeToWorkspace (server_at "/w") "/elsewhere/a.html"
     = "".
Proof.
  assert (C : Server.canGetPath (server_at "/w") "/elsewhere/a.html" = false)
    by reflexivity.
  split; [exact C|].
  exact (proj2 (ServerFacts.C10_relative_path_empty_iff
                  (server_at "/w") "/elsewhere/a.html") C).
Defined.

(** A Windows machine: backslashes become slashes. *)
Example windows_relative_path :
  Server.getFileRelativeToWorkspace (server_at "c:\ws") "c:\ws\pages\a.html"
  = "/pages/a.html".
Proof. reflexivity. Qed.

End Scenarios.

(** * Further properties of the server *)

Module ServerRunFacts.

Import JS StringFacts Server ServerOps ServerFacts.

Local Open Scope list_scope.

Lemma relayed_snoc (es : list Effect) (e : Effect) :
  relayed (es ++ [e])
  = relayed es ++ match e with fire_onNewReqProcessed m => [m] | _ => [] end.
Proof.
  induction es as [|a es IH]; simpl.
  - destruct e; reflexivity.
  - rewrite IH. destruct a; reflexivity.
Qed.

(** Split a step into the cases of its label and of the fields that the
    code branches on. *)
Ltac step_cases H :=
  match type of H with
  | step ?l ?w = Some _ =>
      let hp := fresh "hp" in let inj := fresh "inj" in
      let hpend := fresh "hpend" in let wsp := fresh "wsp" in
      let wpend := fresh "wpend" in let uri := fresh "uri" in
      let on := fresh "on" in let wpath := fresh "wpath" in
      let pol := fresh "pol" in let pops := fresh "pops" in
      let lg := fresh "lg" in
      let p := fresh "p" in let m := fresh "m" in
      let ev := fresh "ev" in let c := fresh "c" in
      let n := fresh "n" in let x := fresh "x" in
      let cs := fresh "cs" in let Tp := fresh "Tp" in
      destruct w as [[[hp inj hpend] [wsp wpend] uri on wpath] [pol pops] lg];
      destruct l as [p| | |p|p|p|p|m|ev|c];
      [ destruct uri
      | destruct pops
      | | |
      | destruct hpend as [|n]
      | unfold step, dispatch, registrations in H;
        cbn [map deliver run_all] in H;
        unfold wsServer_onConnected_listener, _onPortChangeEmitter_fire,
          onPortChange_listener in H;
        cbn [ws_port] in H;
        destruct wpend as [|n], (truthy_number p) eqn:Tp, pops
      |
      | destruct ev as [[[[|x cs]|]]| | | | | | |]; destruct pol
      | ]
  end.

Ltac use_truthy :=
  repeat match goal with
         | E : truthy_number _ = _ |- _ => rewrite E
         end.

Ltac read_off H :=
  cbn in H;
  first
    [ discriminate H
    | injection H as <-;
      cbn -[count truthy_number]; use_truthy;
      rewrite ?count_snoc, ?relayed_snoc, <- ?app_assoc, ?app_nil_r;
      cbn -[count truthy_number];
      repeat split; auto; try lia; try discriminate;
      try (match goal with
           | |- context [if ?b then _ else _] => destruct b
           end; lia) ].

(** What one step does to the running flag, to the relayed requests, to
    the messages and reloads, and to the settings. *)
Lemma step_observations (l : Label) (w w' : World) :
  step l w = Some w' ->
  _isServerOn (this w') = running_after [l] (_isServerOn (this w))
  /\ relayed (log w') = relayed (log w) ++ requests [l]
  /\ count is_information (log w')
     = count is_information (log w)
       + (if showServerStatusPopUps (settings w)
          then indicator (is_close l || is_ws_bound l) else 0)
  /\ count is_refresh (log w')
     <= count is_refresh (log w) + 2 * indicator (is_workspace_label l)
  /\ (autoRefreshPreview (settings w) = never ->
      count is_refresh (log w') = count is_refresh (log w))
  /\ settings w'
     = match l with settings_changed c => c | _ => settings w end.
Proof.
  intros H. step_cases H; read_off H.
Qed.

(** What one step does to the injector, when the extension context is
    there. *)
Lemma step_injector (l : Label) (w w' : World) :
  step l w = Some w' ->
  _extensionUri (this w) <> None ->
  injectorWSPort (_httpServer (this w'))
  = injector_after [l] (injectorWSPort (_httpServer (this w))).
Proof.
  intros H U. step_cases H; try read_off H.
  now contradiction U.
Qed.

Lemma running_after_cons (l : Label) (ls : list Label) (b : bool) :
  running_after (l :: ls) b = running_after ls (running_after [l] b).
Proof. destruct l; reflexivity. Qed.

Lemma injector_after_cons (l : Label) (ls : list Label) (i : option Z) :
  injector_after (l :: ls) i = injector_after ls (injector_after [l] i).
Proof. destruct l; reflexivity. Qed.

Lemma requests_cons (l : Label) (ls : list Label) :
  requests (l :: ls) = requests [l] ++ requests ls.
Proof. destruct l; reflexivity. Qed.

(** X1.  [isRunning] after a run is decided by the last bind report of
    the WebSocket server or call of [closeServer] in it: [true] after a
    bind report, [false] after [closeServer], and what it was before
    when the run has neither. *)
Theorem isRunning_follows_last_bind_or_close :
  forall (ls : list Label) (w w' : World),
    run ls w = Some w' ->
    isRunning (this w') = running_after ls (isRunning (this w)).
Proof.
  unfold isRunning.
  induction ls as [|l ls IH]; intros w w' H; simpl in H.
  - now injection H as <-.
  - destruct (step l w) as [w1|] eqn:E; [|discriminate].
    rewrite running_after_cons, (IH w1 w' H).
    now rewrite (proj1 (step_observations l w w1 E)).
Qed.

(** X2.  Along any run of a constructed server the injector of the HTTP
    server holds the last port written to it: [p + 1] after
    [openServer(p)], the reported port after a bind report of the
    WebSocket server with a non-zero port; a reported port 0 and every
    other step leave it as it is. *)
Theorem injector_holds_last_written_port :
  forall (u : vscode.Uri) (wp : option string) (cfg : Config)
         (ls : list Label) (w : World),
    run ls (new u wp cfg) = Some w ->
    injectorWSPort (_httpServer (this w)) = injector_after ls None.
Proof.
  intros u wp cfg ls w H.
  assert (G : forall ls w0 w1,
             run ls w0 = Some w1 ->
             _extensionUri (this w0) <> None ->
             injectorWSPort (_httpServer (this w1))
             = injector_after ls (injectorWSPort (_httpServer (this w0)))).
  { clear. induction ls as [|l ls IH]; intros w0 w1 H U; simpl in H.
    - now injection H as <-.
    - destruct (step l w0) as [w'|] eqn:E; [|discriminate].
      rewrite injector_after_cons, <- (step_injector l w0 w' E U).
      apply IH; [exact H|].
      destruct (step_accounting l w0 w' E) as (_ & _ & _ & _ & U' & _).
      now rewrite U'. }
  destruct (new_fields u wp cfg) as (N & _ & _).
  rewrite (G ls _ _ H); rewrite N; [reflexivity | discriminate].
Qed.

(** X3.  Every request that the HTTP server reports is passed on through
    [onNewReqProcessed] exactly once, with its payload, in the order of
    arrival; nothing else is ever fired on that event. *)
Theorem requests_relayed_in_order :
  forall (ls : list Label) (w w' : World),
    run ls w = Some w' ->
    relayed (log w') = relayed (log w) ++ requests ls.
Proof.
  induction ls as [|l ls IH]; intros w w' H; simpl in H.
  - injection H as <-. now rewrite app_nil_r.
  - destruct (step l w) as [w1|] eqn:E; [|discriminate].
    rewrite requests_cons, app_assoc, (IH w1 w' H).
    now rewrite (proj1 (proj2 (step_observations l w w1 E))).
Qed.

(** X4.  While the status pop-ups are switched off in the settings, the
    server shows no information message, whatever happens to it. *)
Theorem no_information_message_while_popups_off :
  forall (ls : list Label) (w w' : World),
    run ls w = Some w' ->
    showServerStatusPopUps (settings w) = false ->
    popups_stay_off ls = true ->
    count is_information (log w') = count is_information (log w).
Proof.
  induction ls as [|l ls IH]; intros w w' H Off Stay; simpl in H.
  - now injection H as <-.
  - destruct (step l w) as [w1|] eqn:E; [|discriminate].
    destruct (step_observations l w w1 E) as (_ & _ & I & _ & _ & S).
    simpl in Stay. apply andb_true_iff in Stay as [Sl Stay].
    rewrite Off in I. rewrite (IH w1 w' H); [lia | | exact Stay].
    rewrite S. destruct l; try exact Off.
    now apply negb_true_iff in Sl.
Qed.

(** X21.  While the status pop-ups are switched on in the settings, the
    server shows exactly one information message per call of
    [closeServer] and one per bind report of the WebSocket server, and
    no other. *)
Theorem information_messages_while_popups_on :
  forall (ls : list Label) (w w' : World),
    run ls w = Some w' ->
    showServerStatusPopUps (settings w) = true ->
    forallb (fun l => match l with
                      | settings_changed c => showServerStatusPopUps c
                      | _ => true
                      end) ls = true ->
    count is_information (log w')
    = count is_information (log w)
      + occurrences is_close ls + occurrences is_ws_bound ls.
Proof.
  induction ls as [|l ls IH]; intros w w' H Pops Stay; simpl in H.
  - injection H as <-. unfold occurrences. simpl. lia.
  - destruct (step l w) as [w1|] eqn:E; [|discriminate].
    destruct (step_observations l w w1 E) as (_ & _ & I & _ & _ & S).
    simpl in Stay. apply andb_true_iff in Stay as [Sl Stay].
    rewrite Pops in I. rewrite !occurrences_cons.
    rewrite (IH w1 w' H); [| | exact Stay].
    + rewrite I. destruct l; cbn; lia.
    + rewrite S. destruct l; try exact Pops. exact Sl.
Qed.

(** X5.  While the policy in the settings is [never], nothing makes the
    server call [refreshBrowsers]: no edit, save, creation, deletion or
    renaming, and nothing else either. *)
Theorem no_reload_under_never :
  forall (ls : list Label) (w w' : World),
    run ls w = Some w' ->
    autoRefreshPreview (settings w) = never ->
    policy_stays_never ls = true ->
    count is_refresh (log w') = count is_refresh (log w).
Proof.
  induction ls as [|l ls IH]; intros w w' H Nv Stay; simpl in H.
  - now injection H as <-.
  - destruct (step l w) as [w1|] eqn:E; [|discriminate].
    destruct (step_observations l w w1 E) as (_ & _ & _ & _ & R & S).
    simpl in Stay. apply andb_true_iff in Stay as [Sl Stay].
    rewrite (IH w1 w' H); [now apply R | | exact Stay].
    rewrite S. destruct l; try exact Nv.
    destruct (autoRefreshPreview c); try discriminate. reflexivity.
Qed.

(** X6.  Only events of the workspace make the server call
    [refreshBrowsers], and one event makes it do so at most twice: opening
    and closing, bind reports, requests and changes of the settings
    never reload a browser. *)
Theorem reloads_only_on_workspace_events :
  forall (ls : list Label) (w w' : World),
    run ls w = Some w' ->
    count is_refresh (log w) <= count is_refresh (log w')
    /\ count is_refresh (log w')
       <= count is_refresh (log w) + 2 * occurrences is_workspace_label ls.
Proof.
  induction ls as [|l ls IH]; intros w w' H; simpl in H.
  - injection H as <-. unfold occurrences. simpl. lia.
  - destruct (step l w) as [w1|] eqn:E; [|discriminate].
    destruct (step_observations l w w1 E) as (_ & _ & _ & R & _ & _).
    destruct (IH w1 w' H) as (Lo & Hi).
    rewrite occurrences_cons. unfold indicator in R.
    assert (Mono : count is_refresh (log w) <= count is_refresh (log w1)).
    { clear - E. step_cases E; read_off E. }
    lia.
Qed.

(** X7.  The warning about the missing root is shown by the constructor
    exactly when the workspace path is missing or is the empty string,
    and never again: in every state that the server reaches, the number
    of warnings shown is 1 in that case and 0 otherwise. *)
Theorem warning_only_from_constructor :
  forall (u : vscode.Uri) (wp : option string) (cfg : Config)
         (ls : list Label) (w : World),
    run ls (new u wp cfg) = Some w ->
    count is_warning (log w)
    = match wp with
      | Some path => if truthy_string path then 0 else 1
      | None => 1
      end.
Proof.
  intros u wp cfg ls w H.
  destruct (run_accounting ls _ _ H) as (_ & W & _).
  rewrite W. now destruct wp as [[|c s]|].
Qed.

(** *** What single events make the server do *)

(** X8.  A saved document makes the server call [refreshBrowsers] once
    under the policy [onSave] and not at all under the other policies;
    created, deleted and renamed files make it call [refreshBrowsers]
    once under [onAnyChange] and under [onSave] and not at all under
    [never].  None of these events changes the server or the settings. *)
Theorem reload_on_save_and_file_events :
  forall (w : World),
    let after (es : list Effect) :=
      {| this := this w; settings := settings w; log := log w ++ es |} in
    let pol := autoRefreshPreview (settings w) in
    snd (dispatch DidSaveTextDocument w)
    = after (if AutoRefreshPreview_eqb pol onSave
             then [wsServer_refreshBrowsers] else [])
    /\ snd (dispatch DidRenameFiles w)
       = after (if reloads pol then [wsServer_refreshBrowsers] else [])
    /\ snd (dispatch DidDeleteFiles w)
       = after (if reloads pol then [wsServer_refreshBrowsers] else [])
    /\ snd (dispatch DidCreateFiles w)
       = after (if reloads pol then [wsServer_refreshBrowsers] else []).
Proof.
  intros w. open_world w. destruct pol; cbn;
    rewrite ?app_nil_r; repeat split.
Qed.

(** X9.  On a bind report of the HTTP server the server announces the
    reported port on [onPortChange] and starts the WebSocket server
    once, on the port property of the HTTP server plus one, with the
    workspace path (or the empty string) as root.  It does not mark
    itself running, does not touch the injector and fires no
    [onFullyConnected]. *)
Theorem http_bind_report_starts_ws_server :
  forall (w : World) (e : Z),
    let w' := snd (dispatch (HttpConnected e) w) in
    added w w'
    = [ fire_onPortChange {| port := Some e; ws_port := None |};
        wsServer_start (http_port (_httpServer (this w)) + 1)
          (or_empty (_workspacePath (this w))) (_extensionUri (this w)) ]
    /\ isRunning (this w') = isRunning (this w)
    /\ _httpServer (this w') = _httpServer (this w)
    /\ ws_starts_pending (_wsServer (this w'))
       = S (ws_starts_pending (_wsServer (this w))).
Proof.
  intros w e. open_world w. cbn -[added].
  split; [|repeat split].
  apply added_app. cbn. now rewrite <- !app_assoc.
Qed.

(** X10.  On a bind report of the WebSocket server with port [e] the
    server, in this order: announces [e] on [onPortChange]; hands [e] to
    the injector unless [e] is 0; switches the status bar on with the
    port of the HTTP server; shows the "opened" message with that port
    exactly when the pop-ups are switched on; fires [onFullyConnected]
    with the port of the HTTP server.  Afterwards it is running. *)
Theorem ws_bind_report_completes_startup :
  forall (w : World) (e : Z),
    let w' := snd (dispatch (WsConnected e) w) in
    let http := http_port (_httpServer (this w)) in
    added w w'
    = [ fire_onPortChange {| port := None; ws_port := Some e |} ]
      ++ (if truthy_number e then [httpServer_setInjectorWSPort e None] else [])
      ++ [ statusBar_ServerOn http ]
      ++ (if showServerStatusPopUps (settings w)
          then [showInformationMessage (Server_Opened_on_Port http)] else [])
      ++ [ fire_onFullyConnected http ]
    /\ isRunning (this w') = true
    /\ http_port (_httpServer (this w')) = http
    /\ _wsServer (this w') = _wsServer (this w).
Proof.
  intros w e. open_world w.
  unfold dispatch, registrations. cbn [map deliver run_all].
  unfold wsServer_onConnected_listener, _onPortChangeEmitter_fire,
    onPortChange_listener. cbn [ws_port].
  destruct (truthy_number e), pops; cbn -[added];
    (split; [|repeat split]);
    apply added_app; cbn; now rewrite <- !app_assoc.
Qed.

(** X11.  [closeServer()] closes the HTTP server, then the WebSocket
    server, switches the status bar off and shows the "closed" message
    exactly when the pop-ups are switched on; afterwards the server is
    not running.  A second call in a row leaves the server as the first
    one did, and closes both sub-servers again. *)
Theorem closeServer_effects_and_repeat :
  forall (w : World),
    let w1 := snd (closeServer w) in
    let w2 := snd (closeServer w1) in
    let calls :=
      [httpServer_close; wsServer_close; statusBar_ServerOff]
      ++ (if showServerStatusPopUps (settings w)
          then [showInformationMessage Server_Closed] else []) in
    added w w1 = calls
    /\ isRunning (this w1) = false
    /\ this w1 = with_isServerOn false (this w)
    /\ this w2 = this w1
    /\ added w1 w2 = calls.
Proof.
  intros w. open_world w. destruct pops; cbn -[added];
    repeat split;
    apply added_app; cbn; now rewrite <- ?app_assoc.
Qed.

(** *** Paths against the workspace path *)

Lemma length_append (a b : string) :
  String.length (a ++ b)%string = String.length a + String.length b.
Proof. induction a as [|c a IH]; simpl; [reflexivity | now rewrite IH]. Qed.

Lemma contains_char_append (c : ascii) (a b : string) :
  contains_char c (a ++ b)%string = contains_char c a || contains_char c b.
Proof.
  induction a as [|x a IH]; simpl; [reflexivity|].
  now rewrite IH, orb_assoc.
Qed.

Lemma replace_char_absent (c d : ascii) (s : string) :
  contains_char c s = false -> replace_char c d s = s.
Proof.
  induction s as [|a s IH]; simpl; intro H; [reflexivity|].
  apply orb_false_iff in H as [Ha Hs].
  now rewrite Ha, (IH Hs).
Qed.

Lemma replace_char_removes (c d : ascii) (s : string) :
  c <> d -> contains_char c (replace_char c d s) = false.
Proof.
  intros Hcd. induction s as [|a s IH]; simpl; [reflexivity|].
  rewrite IH, orb_false_r.
  destruct (Ascii.eqb a c) eqn:E; [|exact E].
  apply Ascii.eqb_neq. congruence.
Qed.

(** [canGetPath] tests for a textual prefix, and
    [getFileRelativeToWorkspace] returns the converted remainder. *)
Lemma textual_prefix :
  forall (s : t) (p : string),
    (canGetPath s p = true
     <-> exists wp rest,
           _workspacePath s = Some wp /\ wp <> ""
           /\ p = (wp ++ rest)%string)
    /\ (forall wp rest,
          _workspacePath s = Some wp -> wp <> "" ->
          p = (wp ++ rest)%string ->
          getFileRelativeToWorkspace s p
          = replace_char backslash slash rest).
Proof.
  intros s p. unfold canGetPath, getFileRelativeToWorkspace. split.
  - destruct (_workspacePath s) as [wp|].
    + destruct (truthy_string wp) eqn:T.
      * rewrite startsWith_iff. apply truthy_string_true in T.
        split.
        -- intros [rest ->]. now exists wp, rest.
        -- intros (wp' & rest & E & _ & ->). injection E as ->.
           now exists rest.
      * apply truthy_string_false in T. split; [discriminate|].
        intros (wp' & rest & E & N & _). injection E as <-.
        now contradiction N.
    + split; [discriminate|]. intros (wp' & rest & E & _). discriminate E.
  - intros wp rest -> N ->.
    apply truthy_string_true in N.
    now rewrite N, startsWith_app, substring_from_app.
Qed.

(** X12.  [canGetPath(p)] is [true] exactly when a non-empty workspace
    path is known and [p] begins with it, character by character; what
    follows the workspace path need not start at a separator.  For every
    such [p], [getFileRelativeToWorkspace(p)] is what follows the
    workspace path, with every backslash turned into a slash.  An empty
    workspace path counts as none. *)
Theorem canGetPath_is_textual_prefix :
  forall (s : t) (p : string),
    (canGetPath s p = true
     <-> exists wp rest,
           _workspacePath s = Some wp /\ wp <> ""
           /\ p = (wp ++ rest)%string)
    /\ (forall wp rest,
          _workspacePath s = Some wp -> wp <> "" ->
          p = (wp ++ rest)%string ->
          getFileRelativeToWorkspace s p
          = replace_char backslash slash rest).
Proof. exact textual_prefix. Qed.

(** X13.  The relative path that [getFileRelativeToWorkspace] returns
    never contains a backslash. *)
Theorem relative_path_has_no_backslash :
  forall (s : t) (p : string),
    contains_char backslash (getFileRelativeToWorkspace s p) = false.
Proof.
  intros s p. unfold getFileRelativeToWorkspace.
  destruct (_workspacePath s) as [wf|]; [|reflexivity].
  destruct (truthy_string wf && startsWith p wf); [|reflexivity].
  apply replace_char_removes. discriminate.
Qed.

(** X14.  For a path that [canGetPath] accepts, the relative path is as
    long as the path without the workspace path in front; and when the
    path contains no backslash, putting the workspace path in front of
    the relative path gives the path back. *)
Theorem relative_path_round_trip :
  forall (s : t) (p : string),
    canGetPath s p = true ->
    exists wp,
      _workspacePath s = Some wp
      /\ String.length (getFileRelativeToWorkspace s p)
         = String.length p - String.length wp
      /\ (contains_char backslash p = false ->
          (wp ++ getFileRelativeToWorkspace s p)%string = p).
Proof.
  intros s p H.
  destruct (textual_prefix s p) as (C & G).
  apply C in H as (wp & rest & E & N & P).
  exists wp. rewrite (G wp rest E N P). subst p.
  split; [exact E|]. split.
  - rewrite replace_char_length, length_append. lia.
  - rewrite contains_char_append. intros B.
    apply orb_false_iff in B as [_ B].
    now rewrite (replace_char_absent _ _ _ B).
Qed.

End ServerRunFacts.

(** * Further properties of the connection *)

Module ConnectionOpsFacts.

Import JS StringFacts Connection ConnectionOps.

Local Open Scope list_scope.

Lemma apply_all_cons (o : Op) (os : list Op) (c : Connection.t) :
  apply_all (o :: os) c
  = (fst (apply_all os (fst (apply o c))),
     snd (apply o c) ++ snd (apply_all os (fst (apply o c)))).
Proof.
  cbn [apply_all]. destruct (apply o c) as [c1 es1]. cbn [fst snd].
  now destruct (apply_all os c1) as [c2 es2].
Qed.

Lemma last_httpPort_acc (os : list Op) (acc : option Z) :
  last_httpPort os acc
  = match last_httpPort os None with Some q => Some q | None => acc end.
Proof.
  revert acc; induction os as [|o os IH]; intros acc; simpl; [reflexivity|].
  destruct o; try apply IH.
  rewrite (IH (Some p)), (IH (Some p)) at 1.
  now destruct (last_httpPort os None).
Qed.

Lemma last_wsPort_acc (os : list Op) (acc : option Z) :
  last_wsPort os acc
  = match last_wsPort os None with Some q => Some q | None => acc end.
Proof.
  revert acc; induction os as [|o os IH]; intros acc; simpl; [reflexivity|].
  destruct o; try apply IH.
  rewrite (IH (Some p)), (IH (Some p)) at 1.
  now destruct (last_wsPort os None).
Qed.

(** What one operation does to the ports of the connection and of its
    port-attributes provider, and what it leaves alone. *)
Lemma apply_ports (o : Op) (c : Connection.t) :
  let c' := fst (apply o c) in
  _httpPort c' = or_else (last_httpPort [o] None) (_httpPort c)
  /\ _wsPort c' = or_else (last_wsPort [o] None) (_wsPort c)
  /\ serverPortAttributesProvider.httpPort (_portAttributes c')
     = or_else (last_httpPort [o] None)
         (serverPortAttributesProvider.httpPort (_portAttributes c))
  /\ serverPortAttributesProvider.wsPort (_portAttributes c')
     = or_else (last_wsPort [o] None)
         (serverPortAttributesProvider.wsPort (_portAttributes c))
  /\ _workspace c' = _workspace c.
Proof.
  destruct o as [p|p|h|p| |affects validRoot]; cbv zeta;
    cbn [apply last_httpPort last_wsPort or_else].
  - repeat split.
  - repeat split.
  - repeat split.
  - repeat split.
  - unfold resetHostToDefault.
    destruct (negb (host c =? DEFAULT_HOST)%string); repeat split.
  - unfold onDidChangeConfiguration_listener.
    destruct affects; repeat split.
Qed.

Lemma apply_all_ports (os : list Op) (c : Connection.t) :
  let c' := fst (apply_all os c) in
  _httpPort c' = or_else (last_httpPort os None) (_httpPort c)
  /\ _wsPort c' = or_else (last_wsPort os None) (_wsPort c)
  /\ serverPortAttributesProvider.httpPort (_portAttributes c')
     = or_else (last_httpPort os None)
         (serverPortAttributesProvider.httpPort (_portAttributes c))
  /\ serverPortAttributesProvider.wsPort (_portAttributes c')
     = or_else (last_wsPort os None)
         (serverPortAttributesProvider.wsPort (_portAttributes c))
  /\ _workspace c' = _workspace c.
Proof.
  revert c; induction os as [|o os IH]; intros c; [repeat split|].
  cbv zeta. rewrite apply_all_cons. cbn [fst].
  destruct (IH (fst (apply o c))) as (H1 & H2 & H3 & H4 & H5).
  destruct (apply_ports o c) as (A1 & A2 & A3 & A4 & A5).
  rewrite H1, H2, H3, H4, H5, A1, A2, A3, A4, A5.
  destruct o; cbn [last_httpPort last_wsPort or_else];
    rewrite ?(last_httpPort_acc os (Some p)), ?(last_wsPort_acc os (Some p));
    repeat split;
    try (destruct (last_httpPort os None); reflexivity);
    try (destruct (last_wsPort os None); reflexivity).
Qed.

(** X15.  The port-attributes provider of a connection learns a port
    only through the setters.  After any sequence of assignments, resets
    and configuration changes on a freshly constructed connection, the
    getters give the last port assigned (or the constructor argument
    when none was), while the provider holds the last port assigned, or
    0 when none was, whatever ports the constructor was given; so it
    classifies as [Silent] exactly those. *)
Theorem provider_follows_setters_only :
  forall (ws : option vscode.WorkspaceFolder) (root : string) (h w : Z)
         (host0 : string) (os : list Op),
    let c' := fst (apply_all os (Connection.new ws root h w host0)) in
    let http_seen := or_else (last_httpPort os None) 0%Z in
    let ws_seen := or_else (last_wsPort os None) 0%Z in
    get_httpPort c' = or_else (last_httpPort os None) h
    /\ get_wsPort c' = or_else (last_wsPort os None) w
    /\ forall port pid commandLine,
         serverPortAttributesProvider.providePortAttributes
           (_portAttributes c') port pid commandLine
           = Some (vscode.mkPortAttributes vscode.Silent)
         <-> (port = ws_seen \/ port = http_seen).
Proof.
  intros ws root h w host0 os. cbv zeta.
  destruct (apply_all_ports os (Connection.new ws root h w host0))
    as (H1 & H2 & H3 & H4 & _).
  split; [exact H1|]. split; [exact H2|].
  intros port pid commandLine.
  unfold serverPortAttributesProvider.providePortAttributes.
  rewrite H3, H4. cbn [serverPortAttributesProvider.httpPort
    serverPortAttributesProvider.wsPort new _portAttributes
    serverPortAttributesProvider.new].
  destruct (Z.eqb_spec port (or_else (last_wsPort os None) 0%Z));
    destruct (Z.eqb_spec port (or_else (last_httpPort os None) 0%Z));
    cbn [orb]; split; intros; auto; try discriminate; tauto.
Qed.

Lemma notifications_app (a b : list Effect) :
  notifications (a ++ b) = notifications a ++ notifications b.
Proof.
  induction a as [|e a IH]; simpl; [reflexivity|].
  destruct e; simpl; now rewrite IH.
Qed.

(** The effects of one operation: none, or the error message followed by
    the notification with the default host, and that only for a call of
    [resetHostToDefault]. *)
Lemma apply_effects (o : Op) (c : Connection.t) :
  notifications (snd (apply o c))
  = repeat DEFAULT_HOST
      (List.length (filter is_errorMessage (snd (apply o c))))
  /\ List.length (filter is_errorMessage (snd (apply o c)))
     <= (if is_reset o then 1 else 0).
Proof.
  destruct o; cbn; try (split; [reflexivity | lia]).
  unfold resetHostToDefault.
  destruct (negb (host c =? DEFAULT_HOST)%string); cbn;
    (split; [reflexivity | lia]).
Qed.

(** X16.  Whatever is done to a connection, every notification on
    [onShouldResetInitHost] carries the default host, each one comes
    with one error message, and there are at most as many of them as
    calls of [resetHostToDefault]. *)
Theorem notifications_carry_default_host :
  forall (os : list Op) (c : Connection.t),
    let es := snd (apply_all os c) in
    notifications es
    = repeat DEFAULT_HOST (List.length (filter is_errorMessage es))
    /\ List.length (notifications es)
       = List.length (filter is_errorMessage es)
    /\ List.length (filter is_errorMessage es)
       <= List.length (filter is_reset os).
Proof.
  intros os c. cbv zeta.
  assert (G : notifications (snd (apply_all os c))
              = repeat DEFAULT_HOST
                  (List.length
                     (filter is_errorMessage (snd (apply_all os c))))
              /\ List.length (filter is_errorMessage (snd (apply_all os c)))
                 <= List.length (filter is_reset os)).
  { revert c; induction os as [|o os IH]; intros c.
    - split; [reflexivity | simpl; lia].
    - rewrite apply_all_cons. cbn [snd].
      destruct (IH (fst (apply o c))) as (N & L).
      destruct (apply_effects o c) as (N1 & L1).
      rewrite notifications_app, filter_app, length_app, repeat_app, N, N1.
      split; [reflexivity|].
      cbn [filter]. destruct (is_reset o); cbn [List.length]; lia. }
  destruct G as (N & L).
  split; [exact N|]. split; [|exact L].
  rewrite N. apply repeat_length.
Qed.

Section WithEditor.

Variable Uri_parse : string -> vscode.Uri.
Variable Uri_file : string -> vscode.Uri.
Variable joinPath : vscode.Uri -> string -> vscode.Uri.
Variable asExternalUri : vscode.Uri -> vscode.Uri.

Lemma apply_rootPrefix_without_workspace (o : Op) (c : Connection.t) :
  _workspace c = None ->
  _rootPrefix (fst (apply o c))
  = if touches_settings o then ""%string else _rootPrefix c.
Proof.
  intros W. destruct o as [p|p|h|p| |affects validRoot]; cbn;
    try reflexivity.
  - unfold resetHostToDefault.
    now destruct (negb (host c =? DEFAULT_HOST)%string).
  - unfold onDidChangeConfiguration_listener.
    destruct affects; [|reflexivity]. cbn. now rewrite W.
Qed.

Lemma rootPrefix_without_workspace (os : list Op) (c : Connection.t) :
  _workspace c = None ->
  _rootPrefix (fst (apply_all os c))
  = if existsb touches_settings os then ""%string else _rootPrefix c.
Proof.
  revert c; induction os as [|o os IH]; intros c W; [reflexivity|].
  rewrite apply_all_cons. cbn [fst existsb].
  assert (W1 : _workspace (fst (apply o c)) = None).
  { destruct (apply_ports o c) as (_ & _ & _ & _ & E). now rewrite E. }
  rewrite (IH _ W1), (apply_rootPrefix_without_workspace o c W).
  destruct (touches_settings o); cbn [orb]; [|reflexivity].
  now destruct (existsb touches_settings os).
Qed.

(** X17.  The workspace of a connection never changes.  So a connection
    has a root path exactly when it was constructed with a workspace;
    and one constructed without a workspace, whatever is done to it,
    finds no file relative to the workspace, resolves an appended path
    as a plain file URI, and has the empty root prefix after any change
    of the configuration that touches the settings of the extension. *)
Theorem connection_without_workspace_stays_rootless :
  forall (os : list Op) (c : Connection.t),
    let c' := fst (apply_all os c) in
    _workspace c' = _workspace c
    /\ (rootPath joinPath c' = None <-> _workspace c = None)
    /\ (_workspace c = None ->
        (forall sep path,
            getFileRelativeToWorkspace sep joinPath c' path = None)
        /\ (forall path,
               getAppendedURI Uri_file joinPath c' path = Uri_file path)
        /\ (existsb touches_settings os = true ->
            _rootPrefix c' = ""%string)).
Proof.
  intros os c. cbv zeta.
  destruct (apply_all_ports os c) as (_ & _ & _ & _ & W).
  split; [exact W|].
  unfold getFileRelativeToWorkspace, getAppendedURI, rootPath, rootURI,
    Connection.workspace.
  rewrite W. split.
  - destruct (_workspace c); cbn; split; intro; congruence.
  - intros N. rewrite N. cbn. repeat split.
    intros T. now rewrite (rootPrefix_without_workspace os c N), T.
Qed.



End WithEditor.

Lemma append_inj_r (a b s : string) :
  (a ++ s)%string = (b ++ s)%string -> a = b.
Proof.
  revert b; induction a as [|x a IH]; intros [|y b] H; simpl in H.
  - reflexivity.
  - apply (f_equal String.length) in H. simpl in H.
    rewrite ServerRunFacts.length_append in H. lia.
  - apply (f_equal String.length) in H. simpl in H.
    rewrite ServerRunFacts.length_append in H. lia.
  - injection H as -> H. f_equal. now apply IH.
Qed.

Lemma number_to_string_inj (p q : Z) :
  number_to_string p = number_to_string q -> p = q.
Proof.
  unfold number_to_string. intros H.
  apply DecimalZ.to_int_inj.
  apply (f_equal NilEmpty.int_of_string) in H.
  rewrite !NilEmpty.isi in H. now injection H.
Qed.

(** X18.  On one connection, two different ports never give the same
    local address, with or without a path. *)
Theorem local_address_tells_ports_apart :
  forall (c : Connection.t) (p q : Z) (path : option string),
    p <> q ->
    local_address c p path <> local_address c q path.
Proof.
  intros c p q path N H. apply N.
  unfold local_address in H.
  apply number_to_string_inj.
  do 3 apply append_inj_l in H.
  now apply append_inj_r in H.
Qed.

(** X20.  [resetHostToDefault()] changes the host and nothing else:
    ports, workspace, root prefix, WebSocket path and the port-attributes
    provider stay as they are, and every local address built afterwards
    is on the default host. *)
Theorem resetHostToDefault_changes_host_only :
  forall (c : Connection.t) (port : Z) (path : option string),
    let c' := fst (resetHostToDefault c) in
    c' = set_host DEFAULT_HOST c
    /\ get_httpPort c' = get_httpPort c
    /\ get_wsPort c' = get_wsPort c
    /\ _workspace c' = _workspace c
    /\ _rootPrefix c' = _rootPrefix c
    /\ wsPath c' = wsPath c
    /\ _portAttributes c' = _portAttributes c
    /\ local_address c' port path
       = ("http://" ++ DEFAULT_HOST ++ ":" ++ number_to_string port
            ++ Server.or_empty path)%string.
Proof.
  intros c port path. cbv zeta.
  assert (E : fst (resetHostToDefault c) = set_host DEFAULT_HOST c).
  { unfold resetHostToDefault.
    destruct (String.eqb_spec (host c) DEFAULT_HOST) as [H|H];
      cbn [negb fst]; [|reflexivity].
    destruct c; cbn in *. now subst. }
  rewrite E. repeat split.
Qed.

End ConnectionOpsFacts.

(** * The further properties at work *)

Module MoreScenarios.

Import JS Fixtures MoreFixtures.

Local Open Scope Z_scope.

(** Opened, bound twice, closed: not running; bound again: running. *)
Lemma isRunning_witness :
  let ls := [Server.call_openServer 8080; Server.http_bound 8080;
             Server.ws_bound 8081; Server.call_closeServer] in
  exists w : Server.World,
    Server.run ls (Server.new ext (Some "/w") cfg) = Some w
    /\ Server.isRunning (Server.this w) = false.
Proof.
  intros ls. eexists. split; [reflexivity|].
  exact (ServerRunFacts.isRunning_follows_last_bind_or_close
           ls (Server.new ext (Some "/w") cfg) _ eq_refl).
Defined.

(** The provisional port 8081 is replaced by the bound port 8082. *)
Lemma injector_witness :
  let ls := [Server.call_openServer 8080; Server.http_bound 8080;
             Server.ws_bound 8082; Server.call_closeServer] in
  exists w : Server.World,
    Server.run ls (Server.new ext (Some "/w") cfg) = Some w
    /\ Server.injectorWSPort (Server._httpServer (Server.this w)) = Some 8082.
Proof.
  intros ls. eexists. split; [reflexivity|].
  exact (ServerRunFacts.injector_holds_last_written_port
           ext (Some "/w") cfg ls _ eq_refl).
Defined.

(** Two requests with a save in between are relayed in order. *)
Lemma requests_witness :
  let ls := [Server.http_request "GET /a";
             Server.workspace_event Server.DidSaveTextDocument;
             Server.http_request "GET /b"] in
  exists w : Server.World,
    Server.run ls (Server.new ext (Some "/w") cfg) = Some w
    /\ ServerOps.relayed (Server.log w) = ["GET /a"; "GET /b"]%string.
Proof.
  intros ls. eexists. split; [reflexivity|].
  exact (ServerRunFacts.requests_relayed_in_order
           ls (Server.new ext (Some "/w") cfg) _ eq_refl).
Defined.

(** A whole session with the pop-ups off shows no information message. *)
Lemma popups_witness :
  let ls := [Server.call_openServer 8080; Server.http_bound 8080;
             Server.ws_bound 8081; Server.call_closeServer] in
  exists w : Server.World,
    Server.run ls (Server.new ext (Some "/w") cfg) = Some w
    /\ Server.showServerStatusPopUps
         (Server.settings (Server.new ext (Some "/w") cfg)) = false
    /\ ServerOps.popups_stay_off ls = true
    /\ Server.count ServerOps.is_information (Server.log w) = 0%nat.
Proof.
  intros ls. eexists. split; [reflexivity|].
  split; [reflexivity|]. split; [reflexivity|].
  exact (ServerRunFacts.no_information_message_while_popups_off
           ls (Server.new ext (Some "/w") cfg) _ eq_refl eq_refl eq_refl).
Defined.

(** Edits, saves and new files under [never]: no reload. *)
Lemma never_witness :
  let ls := [Server.workspace_event an_edit;
             Server.workspace_event Server.DidSaveTextDocument;
             Server.workspace_event Server.DidCreateFiles] in
  exists w : Server.World,
    Server.run ls (Server.new ext (Some "/w") never_cfg) = Some w
    /\ Server.autoRefreshPreview
         (Server.settings (Server.new ext (Some "/w") never_cfg))
       = Server.never
    /\ ServerOps.policy_stays_never ls = true
    /\ Server.count Server.is_refresh (Server.log w) = 0%nat.
Proof.
  intros ls. eexists. split; [reflexivity|].
  split; [reflexivity|]. split; [reflexivity|].
  exact (ServerRunFacts.no_reload_under_never
           ls (Server.new ext (Some "/w") never_cfg) _ eq_refl eq_refl eq_refl).
Defined.

(** One edit among other steps: at most two reloads. *)
Lemma reloads_witness :
  let ls := [Server.call_openServer 8080; Server.workspace_event an_edit;
             Server.http_bound 8080] in
  exists w : Server.World,
    Server.run ls (Server.new ext (Some "/w") cfg) = Some w
    /\ (Server.count Server.is_refresh (Server.log w) <= 2)%nat.
Proof.
  intros ls. eexists. split; [reflexivity|].
  exact (proj2 (ServerRunFacts.reloads_only_on_workspace_events
                  ls (Server.new ext (Some "/w") cfg) _ eq_refl)).
Defined.

(** An empty workspace path counts as a missing one. *)
Lemma warning_witness :
  let ls := [Server.call_openServer 8080; Server.call_closeServer] in
  exists w : Server.World,
    Server.run ls (Server.new ext (Some ""%string) cfg) = Some w
    /\ Server.count Server.is_warning (Server.log w) = 1%nat.
Proof.
  intros ls. eexists. split; [reflexivity|].
  exact (ServerRunFacts.warning_only_from_constructor
           ext (Some ""%string) cfg ls _ eq_refl).
Defined.

(** A sibling folder that shares the characters of the workspace path is
    accepted, and its relative path starts in the middle of a name. *)
Lemma textual_prefix_witness :
  Server._workspacePath (server_at "/a/b") = Some "/a/b"%string
  /\ "/a/b"%string <> ""%string
  /\ Server.canGetPath (server_at "/a/b") "/a/bc/x.html" = true
  /\ Server.getFileRelativeToWorkspace (server_at "/a/b") "/a/bc/x.html"
     = "c/x.html"%string.
Proof.
  assert (W : Server._workspacePath (server_at "/a/b") = Some "/a/b"%string)
    by reflexivity.
  assert (N : "/a/b"%string <> ""%string) by discriminate.
  split; [exact W|]. split; [exact N|].
  destruct (ServerRunFacts.canGetPath_is_textual_prefix
              (server_at "/a/b") "/a/bc/x.html") as (C & G).
  split.
  - apply C. exists "/a/b"%string, "c/x.html"%string. repeat split; assumption.
  - exact (G "/a/b"%string "c/x.html"%string W N eq_refl).
Defined.

(** A POSIX path inside the workspace is put together again. *)
Lemma round_trip_witness :
  Server.canGetPath (server_at "/w") "/w/pages/a.html" = true
  /\ exists wp : string,
       Server._workspacePath (server_at "/w") = Some wp
       /\ String.length
            (Server.getFileRelativeToWorkspace (server_at "/w") "/w/pages/a.html")
          = (String.length "/w/pages/a.html" - String.length wp)%nat
       /\ (ServerOps.contains_char backslash "/w/pages/a.html" = false ->
           (wp ++ Server.getFileRelativeToWorkspace (server_at "/w")
                    "/w/pages/a.html")%string
           = "/w/pages/a.html"%string).
Proof.
  assert (C : Server.canGetPath (server_at "/w") "/w/pages/a.html" = true)
    by reflexivity.
  split; [exact C|].
  exact (ServerRunFacts.relative_path_round_trip
           (server_at "/w") "/w/pages/a.html" C).
Defined.

(** No workspace: an appended path is a plain file, also after the
    settings changed. *)
Lemma rootless_witness :
  let joinPath := fun (u : vscode.Uri) (s : string) =>
                    vscode.mkUri (vscode.fsPath u ++ "/" ++ s) in
  let c := Connection.new None "site" 3000 3001 DEFAULT_HOST in
  let os := [ConnectionOps.assign_httpPort 3002;
             ConnectionOps.configuration_changed true "public"] in
  Connection._workspace c = None
  /\ existsb ConnectionOps.touches_settings os = true
  /\ Connection._rootPrefix (fst (ConnectionOps.apply_all os c)) = ""%string
  /\ ConnectionOps.getAppendedURI vscode.mkUri joinPath
       (fst (ConnectionOps.apply_all os c)) "/tmp/a.html"
     = vscode.mkUri "/tmp/a.html".
Proof.
  intros joinPath c os.
  assert (W : Connection._workspace c = None) by reflexivity.
  assert (T : existsb ConnectionOps.touches_settings os = true) by reflexivity.
  split; [exact W|]. split; [exact T|].
  destruct (ConnectionOpsFacts.connection_without_workspace_stays_rootless
              vscode.mkUri joinPath os c) as (_ & _ & R).
  destruct (R W) as (_ & A & P).
  split; [exact (P T) | exact (A "/tmp/a.html"%string)].
Defined.

(** Ports 8080 and 8081 on the default host. *)
Lemma local_address_witness :
  let c := Connection.new None "" 8080 8081 DEFAULT_HOST in
  8080 <> 8081
  /\ ConnectionOps.local_address c 8080 None
     <> ConnectionOps.local_address c 8081 None.
Proof.
  intros c.
  assert (N : 8080 <> 8081) by discriminate.
  split; [exact N|].
  exact (ConnectionOpsFacts.local_address_tells_ports_apart c 8080 8081 None N).
Defined.

(** The text of a local address, with and without a path. *)
Example local_address_text :
  let c := Connection.new None "" 8080 8081 DEFAULT_HOST in
  ConnectionOps.local_address c 8080 None = "http://127.0.0.1:8080"%string
  /\ ConnectionOps.local_address c 8081 (Some "/ws"%string)
     = "http://127.0.0.1:8081/ws"%string.
Proof. split; reflexivity. Qed.

(** Opened, bound, closed with the pop-ups on: two messages. *)
Lemma popups_on_witness :
  let ls := [Server.call_openServer 8080; Server.http_bound 8080;
             Server.ws_bound 8081; Server.call_closeServer] in
  exists w : Server.World,
    Server.run ls (Server.new ext (Some "/w") loud_cfg) = Some w
    /\ Server.count ServerOps.is_information (Server.log w) = 2%nat.
Proof.
  intros ls. eexists. split; [reflexivity|].
  exact (ServerRunFacts.information_messages_while_popups_on
           ls (Server.new ext (Some "/w") loud_cfg) _
           eq_refl eq_refl eq_refl).
Defined.


End MoreScenarios.
